(** * The adaptive rate-limit recommender (services/AI-RPS-limiter/main.py)

    A shallow embedding of the recommendation engine served by
    [POST /v1/limit-config]: the time-series buffer, the fallback
    forecaster, the validator and coercer, the recommendation policy with its
    hysteresis state, and the two request handlers.

    Modelling conventions.
    - Python [int] is [Z].
    - Python [float] is [pyfloat]: the finite values are exact rationals
      (rounding to binary64 is not modelled), the values [inf], [-inf] and
      [nan] are kept with their IEEE comparison and arithmetic rules.
    - An aware [datetime] is the number of microseconds of its instant on the
      UTC time line, as a [Z]; a [timedelta] is a number of microseconds.
      The year range of [datetime] is not modelled.
    - A Python exception is [Raise e] in the [result] monad.
    - A [dict] with string keys is a [gmap string _].
    - Module-level state ([collector], [state]) is threaded explicitly as a
      [World].  The locks are not modelled: one handler runs at a time.
    - The environment variables are a record [Env]; what the standard
      library, pydantic and Prophet compute is a record [PyLib].  The
      properties hold for every [Env] and [PyLib] unless they say otherwise.
    - Of the metrics, only the label under which a request is counted is
      modelled. *)

From Stdlib Require Import ZArith QArith Qabs Qround Lia Ascii String.
From stdpp Require Import base option list sorting strings gmap.

Local Open Scope Z_scope.

(** ** Exceptions *)

Inductive exn : Type :=
| ValueError
| OverflowError
| TypeError
| ZeroDivisionError
| IndexError
| OSError.

#[global] Instance exn_eq_dec : EqDecision exn.
Proof. solve_decision. Defined.

Inductive result (A : Type) : Type :=
| Ok (a : A)
| Raise (e : exn).
Arguments Ok {A} a.
Arguments Raise {A} e.

#[global] Instance result_ret : MRet result := fun _ a => Ok a.
#[global] Instance result_bind : MBind result := fun _ _ f c =>
  match c with
  | Ok a => f a
  | Raise e => Raise e
  end.

#[global] Instance result_fmap : FMap result := fun _ _ f c =>
  match c with
  | Ok a => Ok (f a)
  | Raise e => Raise e
  end.

Definition is_ok {A} (c : result A) : bool :=
  match c with Ok _ => true | Raise _ => false end.

(** [try: c except e: h] *)
Definition try_except {A} (c : result A) (e : exn) (h : result A) : result A :=
  match c with
  | Ok a => Ok a
  | Raise e' => if decide (e' = e) then h else Raise e'
  end.

(** ** Python floats *)

Module PyFloat.

Inductive pyfloat : Type :=
| Fin (q : Q)
| PInf
| NInf
| NaN.

Definition of_Z (z : Z) : pyfloat := Fin (inject_Z z).

Definition Qltb (a b : Q) : bool := negb (Qle_bool b a).

Definition Qsign (q : Q) : comparison := (Qnum q ?= 0)%Z.

Definition isfinite (x : pyfloat) : bool :=
  match x with Fin _ => true | _ => false end.

(** [x < y] and [x <= y]; every comparison with [nan] is false. *)
Definition ltb (x y : pyfloat) : bool :=
  match x, y with
  | NaN, _ | _, NaN => false
  | Fin a, Fin b => Qltb a b
  | NInf, NInf => false
  | NInf, _ => true
  | _, NInf => false
  | PInf, _ => false
  | Fin _, PInf => true
  end.

Definition leb (x y : pyfloat) : bool :=
  match x, y with
  | NaN, _ | _, NaN => false
  | Fin a, Fin b => Qle_bool a b
  | NInf, _ => true
  | _, PInf => true
  | PInf, _ => false
  | Fin _, NInf => false
  end.

Definition gtb (x y : pyfloat) : bool := ltb y x.
Definition geb (x y : pyfloat) : bool := leb y x.

Definition neg (x : pyfloat) : pyfloat :=
  match x with
  | Fin q => Fin (- q)
  | PInf => NInf
  | NInf => PInf
  | NaN => NaN
  end.

Definition add (x y : pyfloat) : pyfloat :=
  match x, y with
  | NaN, _ | _, NaN => NaN
  | Fin a, Fin b => Fin (a + b)
  | PInf, NInf | NInf, PInf => NaN
  | PInf, _ | _, PInf => PInf
  | NInf, _ | _, NInf => NInf
  end.

Definition sub (x y : pyfloat) : pyfloat := add x (neg y).

(** The product of an infinity with a finite value takes the sign of the
    product; with zero it is [nan]. *)
Definition inf_times (positive : bool) (q : Q) : pyfloat :=
  match Qsign q with
  | Eq => NaN
  | Gt => if positive then PInf else NInf
  | Lt => if positive then NInf else PInf
  end.

Definition mul (x y : pyfloat) : pyfloat :=
  match x, y with
  | NaN, _ | _, NaN => NaN
  | Fin a, Fin b => Fin (a * b)
  | PInf, Fin b => inf_times true b
  | NInf, Fin b => inf_times false b
  | Fin a, PInf => inf_times true a
  | Fin a, NInf => inf_times false a
  | PInf, PInf | NInf, NInf => PInf
  | PInf, NInf | NInf, PInf => NInf
  end.

(** [x / y]: Python raises [ZeroDivisionError] on a zero divisor. *)
Definition div (x y : pyfloat) : result pyfloat :=
  match y with
  | NaN => Ok NaN
  | Fin b =>
      match Qsign b with
      | Eq => Raise ZeroDivisionError
      | sgn =>
          Ok match x with
             | Fin a => Fin (a / b)
             | NaN => NaN
             | PInf => if decide (sgn = Gt) then PInf else NInf
             | NInf => if decide (sgn = Gt) then NInf else PInf
             end
      end
  | PInf | NInf =>
      Ok match x with
         | Fin _ => Fin 0
         | _ => NaN
         end
  end.

Definition abs (x : pyfloat) : pyfloat :=
  match x with
  | Fin q => Fin (Qabs q)
  | PInf | NInf => PInf
  | NaN => NaN
  end.

(** The builtins [max(a, b)] and [min(a, b)]: the first argument is kept
    unless the second is strictly greater (smaller). *)
Definition max (a b : pyfloat) : pyfloat := if gtb b a then b else a.
Definition min (a b : pyfloat) : pyfloat := if ltb b a then b else a.

(** [math.ceil], [math.floor] and [int()] raise on the non-finite values. *)
Definition to_integer (f : Q → Z) (x : pyfloat) : result Z :=
  match x with
  | Fin q => Ok (f q)
  | PInf | NInf => Raise OverflowError
  | NaN => Raise ValueError
  end.

Definition Qtrunc (q : Q) : Z :=
  if Qle_bool 0 q then Qfloor q else Qceiling q.

Definition ceil : pyfloat → result Z := to_integer Qceiling.
Definition floor : pyfloat → result Z := to_integer Qfloor.
Definition int : pyfloat → result Z := to_integer Qtrunc.

(** Rounding to the nearest integer, ties to even. *)
Definition round_half_even (q : Q) : Z :=
  let f := Qfloor q in
  match (q - inject_Z f ?= 1 # 2)%Q with
  | Lt => f
  | Gt => f + 1
  | Eq => if Z.even f then f else f + 1
  end.

(** [round(x, 3)] *)
Definition round3 (x : pyfloat) : pyfloat :=
  match x with
  | Fin q => Fin (inject_Z (round_half_even (q * 1000)) / 1000)
  | _ => x
  end.

End PyFloat.
Export PyFloat(pyfloat, Fin, PInf, NInf, NaN).

Declare Scope pyfloat_scope.
Delimit Scope pyfloat_scope with F.
Bind Scope pyfloat_scope with pyfloat.
Infix "+" := PyFloat.add : pyfloat_scope.
Infix "-" := PyFloat.sub : pyfloat_scope.
Infix "*" := PyFloat.mul : pyfloat_scope.
Infix "<?" := PyFloat.ltb : pyfloat_scope.
Infix "<=?" := PyFloat.leb : pyfloat_scope.
Infix ">?" := PyFloat.gtb : pyfloat_scope.
Infix ">=?" := PyFloat.geb : pyfloat_scope.

Local Open Scope pyfloat_scope.

(** ** Configuration

    The module-level constants read from the environment at import time. *)

Class Env : Type := {
  HISTORY_WINDOW_SECONDS : Z;
  MAX_HISTORY_POINTS : Z;
  MIN_HISTORY_POINTS : Z;
  FORECAST_SECONDS : Z;
  FALLBACK_WINDOW_POINTS : Z;
  MIN_CHANGE_INTERVAL_SECONDS : Z;
  MIN_RELATIVE_CHANGE : pyfloat;
  INCREASE_THRESHOLD : pyfloat;
  DECREASE_THRESHOLD : pyfloat;
  INCREASE_HEADROOM : pyfloat;
  DECREASE_FACTOR : pyfloat;
  MIN_RPS : pyfloat;
  MAX_RPS : pyfloat;
  REJECTED_RATE_THRESHOLD : pyfloat;
  LATENCY_P95_THRESHOLD : pyfloat;
  ERRORS_5XX_THRESHOLD : Z;
  DDOS_MULTIPLIER : pyfloat;
  DEFAULT_WINDOW_SECONDS : Z;
  TOKEN_CAPACITY_SECONDS : pyfloat;
  MAX_CAPACITY : Z;
  ALLOW_ALGO_SWITCH : bool;
  MIN_ALGO_SWITCH_INTERVAL_SECONDS : Z;
  BURSTINESS_THRESHOLD : pyfloat;
  BURSTINESS_POINTS : Z;
}.

(** The values used when no environment variable is set. *)
Definition default_env : Env := {|
  HISTORY_WINDOW_SECONDS := 3600;
  MAX_HISTORY_POINTS := 5000;
  MIN_HISTORY_POINTS := 10;
  FORECAST_SECONDS := 60;
  FALLBACK_WINDOW_POINTS := 5;
  MIN_CHANGE_INTERVAL_SECONDS := 30;
  MIN_RELATIVE_CHANGE := Fin (1 # 10);
  INCREASE_THRESHOLD := Fin (1 # 10);
  DECREASE_THRESHOLD := Fin (2 # 10);
  INCREASE_HEADROOM := Fin (5 # 100);
  DECREASE_FACTOR := Fin (7 # 10);
  MIN_RPS := Fin 1;
  MAX_RPS := Fin 10000;
  REJECTED_RATE_THRESHOLD := Fin (1 # 10);
  LATENCY_P95_THRESHOLD := Fin 1;
  ERRORS_5XX_THRESHOLD := 1;
  DDOS_MULTIPLIER := Fin 2;
  DEFAULT_WINDOW_SECONDS := 60;
  TOKEN_CAPACITY_SECONDS := Fin 2;
  MAX_CAPACITY := 0;
  ALLOW_ALGO_SWITCH := false;
  MIN_ALGO_SWITCH_INTERVAL_SECONDS := 300;
  BURSTINESS_THRESHOLD := Fin (15 # 10);
  BURSTINESS_POINTS := 10;
|}.

(** ** Data model *)

(** [class LimitConfigIn(BaseModel)] *)
Record LimitConfigIn : Type := {
  algorithm : string;
  limit : option pyfloat;
  window : option Z;
  capacity : option Z;
  fillRate : option pyfloat;
}.

(** The type of the request's [timestamp] field, and the [datetime] that
    [parse_timestamp] also tests for. *)
Record pydatetime : Type := {
  dt_us : Z;          (* the fields, read as UTC when [dt_aware] is false *)
  dt_aware : bool;    (* [tzinfo is not None] *)
}.

Inductive timestamp_value : Type :=
| TsStr (s : string)
| TsFloat (f : pyfloat)
| TsInt (z : Z)
| TsDatetime (d : pydatetime).

(** [class LimitConfigRequest(BaseModel)] *)
Record LimitConfigRequest : Type := {
  timestamp : option timestamp_value;
  observedRps : pyfloat;
  rejectedRate : option pyfloat;
  latencyP95 : option pyfloat;
  errors5xx : option Z;
  currentConfig : LimitConfigIn;
}.

(** [class LimitConfigResponse(BaseModel)] *)
Record LimitConfigResponse : Type := {
  r_algorithm : string;
  r_limit : option Z;
  r_window : option Z;
  r_capacity : option Z;
  r_fillRate : option pyfloat;
  r_predictedRps : option pyfloat;
  r_validFor : option Z;
}.

(** [class TimePoint] *)
Record TimePoint : Type := {
  ts : Z;
  rps : pyfloat;
}.

(** [class RecommendationState] *)
Record RecommendationState : Type := {
  last_change_at : option Z;
  last_algo_switch_at : option Z;
  last_good_recommendation : option LimitConfigResponse;
  last_good_config : option LimitConfigIn;
  last_predicted_rps : option pyfloat;
}.

Definition initial_state : RecommendationState := {|
  last_change_at := None;
  last_algo_switch_at := None;
  last_good_recommendation := None;
  last_good_config := None;
  last_predicted_rps := None;
|}.

(** A decoded JSON document, as [json.loads] returns it. *)
#[warnings="-register-all"]
Inductive json : Type :=
| JNull
| JBool (b : bool)
| JInt (z : Z)
| JFloat (f : pyfloat)
| JStr (s : string)
| JList (l : list json)
| JDict (d : gmap string json).

(** [timedelta(seconds=s)] and [timedelta.total_seconds()] *)
Definition seconds (s : Z) : Z := s * 1000000.
Definition total_seconds (us : Z) : pyfloat := Fin (us # 1000000).

(** [l[start:]] *)
Definition slice_from {A} (start : Z) (l : list A) : list A :=
  let n := Z.of_nat (length l) in
  let i := if (start <? 0)%Z then Z.max 0 (n + start) else Z.min start n in
  drop (Z.to_nat i) l.

(** ** What the libraries provide

    The behaviour of the Python standard library, of pydantic and of Prophet
    at the places the service calls them. *)
Class PyLib : Type := {
  (** [float(s)] on a string; raises [ValueError] *)
  float_of_str : string → result pyfloat;
  (** [datetime.fromisoformat(s)]; raises [ValueError] *)
  fromisoformat : string → result pydatetime;
  (** [datetime.fromtimestamp(x, tz=timezone.utc)] *)
  fromtimestamp : pyfloat → result Z;
  (** The [yhat] of a Prophet model fitted on the points, at the horizon;
      [None] when Prophet could not be imported, [Raise] for any exception
      of the model code. *)
  prophet_yhat : option (list TimePoint → Z → result pyfloat);
  (** pydantic's coercion of a value to a [str], [float] and [int] field;
      [None] is a validation error. *)
  coerce_str : json → option string;
  coerce_float : json → option pyfloat;
  coerce_int : json → option Z;
}.

(** ** Time-series buffer: [class DataCollector] *)

Module DataCollector.

Record t : Type := {
  _window_seconds : Z;
  _max_points : Z;
  _points : list TimePoint;
}.

(** [__init__] *)
Definition init (window_seconds max_points : Z) : t := {|
  _window_seconds := Z.max 1 window_seconds;
  _max_points := Z.max 2 max_points;
  _points := [];
|}.

(** [while self._points and self._points[0].ts < cutoff: popleft()] *)
Fixpoint drop_older (cutoff : Z) (points : list TimePoint) : list TimePoint :=
  match points with
  | [] => []
  | p :: rest => if (ts p <? cutoff)%Z then drop_older cutoff rest else points
  end.

(** [while len(self._points) > self._max_points: popleft()] *)
Fixpoint drop_excess (max_points : Z) (points : list TimePoint) : list TimePoint :=
  match points with
  | [] => []
  | _ :: rest =>
      if (Z.of_nat (length points) >? max_points)%Z
      then drop_excess max_points rest
      else points
  end.

Definition _trim (self : t) : t :=
  match last (_points self) with
  | None => self
  | Some tail =>
      let cutoff := (ts tail - seconds (_window_seconds self))%Z in
      {| _window_seconds := _window_seconds self;
         _max_points := _max_points self;
         _points := drop_excess (_max_points self)
                      (drop_older cutoff (_points self)) |}
  end.

Definition add_point (self : t) (ts0 : Z) (rps0 : pyfloat) : t :=
  let ts1 :=
    match last (_points self) with
    | Some tail => if (ts0 <=? ts tail)%Z then (ts tail + 1)%Z else ts0
    | None => ts0
    end in
  _trim {| _window_seconds := _window_seconds self;
           _max_points := _max_points self;
           _points := _points self ++ [{| ts := ts1; rps := rps0 |}] |}.

Definition snapshot (self : t) : list TimePoint := _points self.

End DataCollector.

(** ** Forecaster *)

Section Forecast.
Context {env : Env} {lib : PyLib}.

Definition fallback_forecast (points : list TimePoint) (horizon_seconds : Z)
  : result pyfloat :=
  match points with
  | [] => Ok (Fin 0)
  | _ =>
      let n := Z.of_nat (length points) in
      let window := slice_from (- Z.max 1 (Z.min n FALLBACK_WINDOW_POINTS)) points in
      match window, last window with
      | start :: _, Some end_ =>
          if decide (length window = 1%nat) then Ok (rps end_)
          else
            let total := total_seconds (ts end_ - ts start) in
            if total <=? Fin 0 then Ok (rps end_)
            else
              slope ← PyFloat.div (rps end_ - rps start) total;
              Ok (PyFloat.max (Fin 0) (rps end_ + slope * PyFloat.of_Z horizon_seconds))
      | _, _ => Raise IndexError
      end
  end.

End Forecast.

Module Forecaster.
Section Forecaster.
Context {env : Env} {lib : PyLib}.

Record t : Type := {
  _horizon_seconds : Z;
  _min_points : Z;
}.

Definition init (horizon_seconds min_points : Z) : t := {|
  _horizon_seconds := Z.max 1 horizon_seconds;
  _min_points := Z.max 2 min_points;
|}.

Definition forecast (self : t) (points : list TimePoint)
  : result (option pyfloat) :=
  match points with
  | [] => Ok None
  | _ =>
      let fallback := Some <$> fallback_forecast points (_horizon_seconds self) in
      match prophet_yhat with
      | Some model =>
          if (Z.of_nat (length points) >=? _min_points self)%Z then
            match model points (_horizon_seconds self) with
            | Ok predicted => Ok (Some (PyFloat.max (Fin 0) predicted))
            | Raise _ => fallback
            end
          else fallback
      | None => fallback
      end
  end.

End Forecaster.
End Forecaster.

(** ** Timestamp parsing *)

(** [value.replace("Z", "+00:00")] *)
Fixpoint replace_Z (s : string) : string :=
  match s with
  | EmptyString => EmptyString
  | String c rest =>
      if Ascii.eqb c "Z"%char then ("+00:00" +:+ replace_Z rest)%string
      else String c (replace_Z rest)
  end.

Section ParseTimestamp.
Context {lib : PyLib}.

(** [now] is the reading of [datetime.now(timezone.utc)]. *)
Definition parse_timestamp (value : option timestamp_value) (now : Z) : result Z :=
  match value with
  | None => Ok now
  | Some (TsDatetime d) => Ok (dt_us d)
  | Some (TsInt z) => fromtimestamp (PyFloat.of_Z z)
  | Some (TsFloat f) => fromtimestamp f
  | Some (TsStr s) =>
      try_except
        (d ← fromisoformat (replace_Z s); Ok (dt_us d))
        ValueError
        (try_except
           (x ← float_of_str s; fromtimestamp x)
           ValueError
           (Ok now))
  end.

End ParseTimestamp.

(** ** Validator and coercer *)

Definition clamp (value minimum : pyfloat) (maximum : option pyfloat) : pyfloat :=
  match maximum with
  | None => PyFloat.max minimum value
  | Some maximum => PyFloat.max minimum (PyFloat.min value maximum)
  end.

Definition fixed_or_sliding (algo : string) : bool :=
  bool_decide (algo = "fixed" ∨ algo = "sliding").

Definition ALLOWED_ALGORITHMS : list string := ["fixed"; "sliding"; "token"].

Definition validate_current_config (config : LimitConfigIn) : option string :=
  if negb (bool_decide (algorithm config ∈ ALLOWED_ALGORITHMS)) then
    Some "Unsupported algorithm"%string
  else
    let fixed_sliding :=
      if fixed_or_sliding (algorithm config) then
        match limit config, window config with
        | Some l, Some w =>
            if (l <=? Fin 0) || (w <=? 0)%Z
            then Some "limit/window must be positive"%string
            else None
        | _, _ => Some "limit and window are required for fixed/sliding"%string
        end
      else None in
    match fixed_sliding with
    | Some err => Some err
    | None =>
        if bool_decide (algorithm config = "token") then
          match capacity config, fillRate config with
          | Some c, Some f =>
              if (c <=? 0)%Z || (f <=? Fin 0)
              then Some "capacity/fillRate must be positive"%string
              else None
          | _, _ => Some "capacity and fillRate are required for token"%string
          end
        else None
    end.

(** [int(x) if x is not None else None] *)
Definition int_opt (x : option pyfloat) : result (option Z) :=
  match x with
  | Some v => Some <$> PyFloat.int v
  | None => Ok None
  end.

Section Coercer.
Context {env : Env} {lib : PyLib}.

Definition keep_current_response
  (config : LimitConfigIn) (predicted_rps : option pyfloat)
  : result LimitConfigResponse :=
  l ← int_opt (limit config);
  Ok {| r_algorithm := algorithm config;
        r_limit := l;
        r_window := window config;
        r_capacity := capacity config;
        r_fillRate := fillRate config;
        r_predictedRps := predicted_rps;
        r_validFor := Some FORECAST_SECONDS |}.

(** [str.strip()] and [str.lower()] on ASCII text. *)
Definition is_space (c : ascii) : bool :=
  let n := nat_of_ascii c in
  ((9 <=? n) && (n <=? 13) || (28 <=? n) && (n <=? 32))%nat.

Fixpoint lstrip (s : list ascii) : list ascii :=
  match s with
  | c :: rest => if is_space c then lstrip rest else s
  | [] => []
  end.

Definition strip (s : string) : string :=
  string_of_list_ascii
    (rev (lstrip (rev (lstrip (list_ascii_of_string s))))).

Definition lower_ascii (c : ascii) : ascii :=
  let n := nat_of_ascii c in
  if ((65 <=? n) && (n <=? 90))%nat then ascii_of_nat (n + 32) else c.

Definition lower (s : string) : string :=
  string_of_list_ascii (lower_ascii <$> list_ascii_of_string s).

(** The [pre] validator of the field [algorithm]. *)
Definition _normalize_algorithm (value : json) : json :=
  match value with
  | JStr s =>
      let normalized := lower (strip s) in
      if bool_decide (normalized = "token_bucket" ∨ normalized = "tokenbucket")
      then JStr "token"
      else JStr normalized
  | _ => value
  end.

(** An [Optional] field with a bound: absent or [null] is [None]. *)
Definition optional_field {A} (coerce : json → option A) (bound : A → bool)
  (value : option json) : option (option A) :=
  match value with
  | None | Some JNull => Some None
  | Some v =>
      match coerce v with
      | Some a => if bound a then Some (Some a) else None
      | None => None
      end
  end.

(** The constructor of [LimitConfigIn] applied to keyword arguments; [None]
    is a validation error.  Keys that are not fields are ignored. *)
Definition LimitConfigIn_new (kwargs : gmap string json) : option LimitConfigIn :=
  raw ← kwargs !! "algorithm"%string;
  algo ← coerce_str (_normalize_algorithm raw);
  l ← optional_field coerce_float (λ v, v >=? Fin 0) (kwargs !! "limit"%string);
  w ← optional_field coerce_int (λ v, v >? 0)%Z (kwargs !! "window"%string);
  c ← optional_field coerce_int (λ v, v >=? 0)%Z (kwargs !! "capacity"%string);
  f ← optional_field coerce_float (λ v, v >=? Fin 0) (kwargs !! "fillRate"%string);
  Some {| algorithm := algo; limit := l; window := w;
          capacity := c; fillRate := f |}.

(** [config.dict(exclude_none=True)] *)
Definition LimitConfigIn_dict (config : LimitConfigIn) : gmap string json :=
  let put {A} (key : string) (inj : A → json) (v : option A)
        (d : gmap string json) : gmap string json :=
    match v with
    | Some a => <[key := inj a]> d
    | None => d
    end in
  put "fillRate"%string JFloat (fillRate config)
    (put "capacity"%string JInt (capacity config)
       (put "window"%string JInt (window config)
          (put "limit"%string JFloat (limit config)
             (<[ "algorithm"%string := JStr (algorithm config) ]> ∅)))).

Definition is_null (value : json) : bool :=
  match value with JNull => true | _ => false end.

Definition coerce_current_config
  (payload : json) (fallback : option LimitConfigIn) : option LimitConfigIn :=
  match payload with
  | JDict payload =>
      match payload !! "currentConfig"%string with
      | Some (JDict raw_config) =>
          let base : gmap string json :=
            match fallback with
            | Some config => LimitConfigIn_dict config
            | None => ∅
            end in
          let merged : gmap string json :=
            filter (λ kv, is_null kv.2 = false) raw_config ∪ base in
          if decide (merged = ∅) then fallback
          else
            match LimitConfigIn_new merged with
            | None => fallback
            | Some candidate =>
                match validate_current_config candidate with
                | Some _ => fallback
                | None => Some candidate
                end
            end
      | _ => fallback
      end
  | _ => fallback
  end.

(** [MAX_RPS if MAX_RPS > 0 else None] *)
Definition max_rps : option pyfloat :=
  if MAX_RPS >? Fin 0 then Some MAX_RPS else None.

Definition default_fallback_config : result LimitConfigIn :=
  let window0 := Z.max 1 DEFAULT_WINDOW_SECONDS in
  min_limit ← PyFloat.ceil (MIN_RPS * PyFloat.of_Z window0);
  let limit0 := Z.max 1 min_limit in
  '(limit1, window1) ←
    match max_rps with
    | None => Ok (limit0, window0)
    | Some max_rps =>
        max_limit ← PyFloat.floor (max_rps * PyFloat.of_Z window0);
        '(max_limit, window1) ←
          (if (max_limit <? 1)%Z then
             inv ← PyFloat.div (PyFloat.of_Z 1) max_rps;
             widened ← PyFloat.ceil inv;
             let window1 := Z.max window0 widened in
             max_limit ← PyFloat.floor (max_rps * PyFloat.of_Z window1);
             Ok (max_limit, window1)
           else Ok (max_limit, window0));
        let limit1 := if (max_limit >=? 1)%Z then Z.min limit0 max_limit else limit0 in
        Ok (Z.max 1 limit1, window1)
    end;
  Ok {| algorithm := "fixed"; limit := Some (PyFloat.of_Z limit1);
        window := Some window1; capacity := None; fillRate := None |}.

End Coercer.

(** ** Recommendation policy *)

(** [float(x)] and [int(x)] of an optional field: [TypeError] on [None]. *)
Definition required {A} (x : option A) : result A :=
  match x with
  | Some a => Ok a
  | None => Raise TypeError
  end.

Section Policy.
Context {env : Env} {lib : PyLib}.

Definition current_rps_limit (config : LimitConfigIn) : result pyfloat :=
  if fixed_or_sliding (algorithm config) then
    l ← required (limit config);
    w ← required (window config);
    PyFloat.div l (PyFloat.of_Z w)
  else required (fillRate config).

(** The builtin [max] of a non-empty list. *)
Definition max_list (sample : list pyfloat) : result pyfloat :=
  match sample with
  | [] => Raise ValueError
  | x :: rest => Ok (foldl PyFloat.max x rest)
  end.

Definition is_bursty (points : list TimePoint) : result bool :=
  if (Z.of_nat (length points) <? Z.max 2 BURSTINESS_POINTS)%Z then Ok false
  else
    let sample := rps <$> slice_from (- BURSTINESS_POINTS) points in
    mean ← PyFloat.div (foldl PyFloat.add (PyFloat.of_Z 0) sample)
                       (PyFloat.of_Z (Z.of_nat (length sample)));
    if mean <=? Fin 0 then Ok false
    else
      peak ← max_list sample;
      ratio ← PyFloat.div peak mean;
      Ok (ratio >=? BURSTINESS_THRESHOLD).

Definition build_response
  (algo : string) (target_rps : pyfloat) (current_config : LimitConfigIn)
  (predicted_rps : option pyfloat) : result LimitConfigResponse :=
  if fixed_or_sliding algo then
    let window0 :=
      match window current_config with
      | Some w => if decide (w = 0) then DEFAULT_WINDOW_SECONDS else w
      | None => DEFAULT_WINDOW_SECONDS
      end in
    limit0 ← PyFloat.ceil (target_rps * PyFloat.of_Z window0);
    min_limit ← PyFloat.ceil (MIN_RPS * PyFloat.of_Z window0);
    let limit1 := Z.max limit0 min_limit in
    limit2 ←
      match max_rps with
      | Some max_rps =>
          max_limit ← PyFloat.floor (max_rps * PyFloat.of_Z window0);
          Ok (Z.min limit1 max_limit)
      | None => Ok limit1
      end;
    Ok {| r_algorithm := algo;
          r_limit := Some limit2;
          r_window := Some window0;
          r_capacity := None;
          r_fillRate := None;
          r_predictedRps := predicted_rps;
          r_validFor := Some FORECAST_SECONDS |}
  else
    let fill_rate := clamp target_rps MIN_RPS max_rps in
    capacity0 ← PyFloat.ceil (fill_rate * TOKEN_CAPACITY_SECONDS);
    min_capacity ← PyFloat.ceil (MIN_RPS * TOKEN_CAPACITY_SECONDS);
    let capacity1 := Z.max capacity0 min_capacity in
    capacity2 ←
      (if PyFloat.of_Z capacity1 <? fill_rate then PyFloat.ceil fill_rate
       else Ok capacity1);
    let capacity3 :=
      if (MAX_CAPACITY >? 0)%Z then Z.min capacity2 MAX_CAPACITY else capacity2 in
    Ok {| r_algorithm := algo;
          r_limit := None;
          r_window := None;
          r_capacity := Some capacity3;
          r_fillRate := Some (PyFloat.round3 fill_rate);
          r_predictedRps := predicted_rps;
          r_validFor := Some FORECAST_SECONDS |}.

Definition configs_equal
  (current : LimitConfigIn) (recommended : LimitConfigResponse) : result bool :=
  if negb (bool_decide (algorithm current = r_algorithm recommended)) then Ok false
  else if fixed_or_sliding (algorithm current) then
    l ← required (limit current);
    l ← PyFloat.int l;
    if bool_decide (Some l = r_limit recommended) then
      w ← required (window current);
      Ok (bool_decide (Some w = r_window recommended))
    else Ok false
  else
    c ← required (capacity current);
    if bool_decide (Some c = r_capacity recommended) then
      f ← required (fillRate current);
      g ← required (r_fillRate recommended);
      Ok (PyFloat.abs (f - g) <? Fin (1 # 1000000))
    else Ok false.

(** The overload signals of a request. *)
Definition overload (request : LimitConfigRequest) : bool :=
  let overload0 := false in
  let overload1 :=
    match rejectedRate request with
    | Some r => if r >=? REJECTED_RATE_THRESHOLD then true else overload0
    | None => overload0
    end in
  let overload2 :=
    match latencyP95 request with
    | Some l => if l >=? LATENCY_P95_THRESHOLD then true else overload1
    | None => overload1
    end in
  match errors5xx request with
  | Some e => if (e >=? ERRORS_5XX_THRESHOLD)%Z then true else overload2
  | None => overload2
  end.

(** The target RPS: [predicted_rps] is the forecast after
    [clamp(predicted_rps, 0.0, max_rps)]. *)
Definition target_rps
  (request : LimitConfigRequest) (current_limit predicted_rps : pyfloat) : pyfloat :=
  let spike := predicted_rps >=? current_limit * DDOS_MULTIPLIER in
  let target0 := current_limit in
  let target1 :=
    if overload request || spike then
      current_limit * DECREASE_FACTOR
    else if predicted_rps >? current_limit * (PyFloat.of_Z 1 + INCREASE_THRESHOLD) then
      predicted_rps * (PyFloat.of_Z 1 + INCREASE_HEADROOM)
    else if predicted_rps <? current_limit * (PyFloat.of_Z 1 - DECREASE_THRESHOLD) then
      predicted_rps
    else target0 in
  let target2 := clamp target1 MIN_RPS max_rps in
  if negb (PyFloat.isfinite target2) then current_limit else target2.

(** The algorithm the policy asks for. *)
Definition desired_algorithm
  (current_config : LimitConfigIn) (history_points : list TimePoint)
  (state : RecommendationState) (now : Z) : result string :=
  let desired := algorithm current_config in
  let algo_switch_allowed :=
    ALLOW_ALGO_SWITCH &&
    match last_algo_switch_at state with
    | None => true
    | Some at_ =>
        total_seconds (now - at_) >=? PyFloat.of_Z MIN_ALGO_SWITCH_INTERVAL_SECONDS
    end in
  if algo_switch_allowed then
    bursty ← is_bursty history_points;
    if (bursty : bool) then Ok "token"%string
    else if bool_decide (desired = "token") then Ok "sliding"%string
    else Ok desired
  else Ok desired.

Definition change_ratio (target current_limit : pyfloat) : result pyfloat :=
  if current_limit >? Fin 0
  then PyFloat.div (PyFloat.abs (target - current_limit)) current_limit
  else Ok (Fin 0).

Definition recent_change_block (state : RecommendationState) (now : Z) : bool :=
  match last_change_at state with
  | None => false
  | Some at_ => total_seconds (now - at_) <? PyFloat.of_Z MIN_CHANGE_INTERVAL_SECONDS
  end.

Definition set_last_change_at (state : RecommendationState) (now : Z) :=
  {| last_change_at := Some now;
     last_algo_switch_at := last_algo_switch_at state;
     last_good_recommendation := last_good_recommendation state;
     last_good_config := last_good_config state;
     last_predicted_rps := last_predicted_rps state |}.

Definition set_last_algo_switch_at (state : RecommendationState) (now : Z) :=
  {| last_change_at := last_change_at state;
     last_algo_switch_at := Some now;
     last_good_recommendation := last_good_recommendation state;
     last_good_config := last_good_config state;
     last_predicted_rps := last_predicted_rps state |}.

(** Returns the recommendation and the state after the call. *)
Definition recommend_config
  (request : LimitConfigRequest) (predicted_rps : pyfloat)
  (history_points : list TimePoint) (state : RecommendationState) (now : Z)
  : result (LimitConfigResponse * RecommendationState) :=
  let current_config := currentConfig request in
  current_limit ← current_rps_limit current_config;
  let predicted_rps := clamp predicted_rps (Fin 0) max_rps in
  let target := target_rps request current_limit predicted_rps in
  desired ← desired_algorithm current_config history_points state now;
  recommendation ←
    build_response desired target current_config (Some (PyFloat.round3 predicted_rps));
  ratio ← change_ratio target current_limit;
  equal ← configs_equal current_config recommendation;
  if (equal : bool) then Ok (recommendation, state)
  else if bool_decide (desired = algorithm current_config)
          && (ratio <? MIN_RELATIVE_CHANGE) then
    kept ← build_response (algorithm current_config) current_limit current_config
             (Some (PyFloat.round3 predicted_rps));
    Ok (kept, state)
  else if recent_change_block state now then
    kept ← build_response (algorithm current_config) current_limit current_config
             (Some (PyFloat.round3 predicted_rps));
    Ok (kept, state)
  else
    let state1 := set_last_change_at state now in
    let state2 :=
      if negb (bool_decide (desired = algorithm current_config))
      then set_last_algo_switch_at state1 now
      else state1 in
    Ok (recommendation, state2).

End Policy.

(** ** HTTP entry point *)

(** The module-level objects: [collector] and [state]. *)
Record World : Type := {
  collector : DataCollector.t;
  state : RecommendationState;
}.

(** What a handler sends back: a 200 whose body is a recommendation, counted
    under a label of [ai_limit_config_requests_total], or a 422.  The gauges
    are not modelled. *)
Inductive Reply : Type :=
| Decision (result_label : string) (body : LimitConfigResponse)
| Unprocessable.

Definition status_code (reply : Reply) : Z :=
  match reply with
  | Decision _ _ => 200
  | Unprocessable => 422
  end.

(** A handler runs on the module-level objects and returns a reply or lets an
    exception escape (a 500); what it wrote before the exception stays. *)
Definition handler (A : Type) : Type := World → World * result A.

#[global] Instance handler_ret : MRet handler := fun _ a w => (w, Ok a).
#[global] Instance handler_bind : MBind handler := fun _ _ f c w =>
  match c w with
  | (w1, Ok a) => f a w1
  | (w1, Raise e) => (w1, Raise e)
  end.

Definition lift {A} (c : result A) : handler A := fun w => (w, c).

Definition get_state : handler RecommendationState := fun w => (w, Ok (state w)).

Definition put_state (st : RecommendationState) : handler unit :=
  fun w => ({| collector := collector w; state := st |}, Ok tt).

Definition collector_add_point (ts0 : Z) (rps0 : pyfloat) : handler unit :=
  fun w => ({| collector := DataCollector.add_point (collector w) ts0 rps0;
               state := state w |}, Ok tt).

Definition collector_snapshot : handler (list TimePoint) :=
  fun w => (w, Ok (DataCollector.snapshot (collector w))).

Definition set_last_predicted_rps (st : RecommendationState) (p : pyfloat) :=
  {| last_change_at := last_change_at st;
     last_algo_switch_at := last_algo_switch_at st;
     last_good_recommendation := last_good_recommendation st;
     last_good_config := last_good_config st;
     last_predicted_rps := Some p |}.

Definition set_last_good (st : RecommendationState)
  (recommendation : LimitConfigResponse) (config : LimitConfigIn) :=
  {| last_change_at := last_change_at st;
     last_algo_switch_at := last_algo_switch_at st;
     last_good_recommendation := Some recommendation;
     last_good_config := Some config;
     last_predicted_rps := last_predicted_rps st |}.

(** A response read back as a [LimitConfigIn]. *)
Definition as_incoming (r : LimitConfigResponse) : LimitConfigIn :=
  {| algorithm := r_algorithm r;
     limit := PyFloat.of_Z <$> r_limit r;
     window := r_window r;
     capacity := r_capacity r;
     fillRate := r_fillRate r |}.

Section Entrypoint.
Context {env : Env} {lib : PyLib}.

Definition initial_world : World := {|
  collector := DataCollector.init HISTORY_WINDOW_SECONDS MAX_HISTORY_POINTS;
  state := initial_state;
|}.

Definition forecaster : Forecaster.t :=
  Forecaster.init FORECAST_SECONDS MIN_HISTORY_POINTS.

(** [POST /v1/limit-config] with a body that parsed into a request.
    [received_at] and [clock] are the two readings of the wall clock, the
    second one inside [parse_timestamp]. *)
Definition limit_config
  (request : LimitConfigRequest) (received_at clock : Z) : handler Reply :=
  sample_ts ← lift (parse_timestamp (timestamp request) clock);
  collector_add_point sample_ts (observedRps request);;
  history ← collector_snapshot;
  predicted ← lift (Forecaster.forecast forecaster history);
  let predicted := default (observedRps request) predicted in
  let predicted := clamp predicted (Fin 0) max_rps in
  let predicted_rps := PyFloat.round3 predicted in
  st ← get_state;
  put_state (set_last_predicted_rps st predicted_rps);;
  match validate_current_config (currentConfig request) with
  | Some _ =>
      st ← get_state;
      fallback_config ←
        match last_good_config st with
        | None => lift default_fallback_config
        | Some config => mret config
        end;
      recommendation ← lift (keep_current_response fallback_config (Some predicted_rps));
      mret (Decision "invalid_config" recommendation)
  | None =>
      st ← get_state;
      '(recommendation, st1) ←
        lift (recommend_config request predicted history st received_at);
      put_state (set_last_good st1 recommendation (currentConfig request));;
      mret (Decision "ok" recommendation)
  end.

(** The handler of [RequestValidationError]: [payload] is the decoded body,
    [JNull] when the body is empty or is not JSON. *)
Definition request_validation_exception_handler
  (path : string) (payload : json) : handler Reply :=
  if negb (bool_decide (path = "/v1/limit-config")) then mret Unprocessable
  else
    st ← get_state;
    let fallback_config := last_good_config st in
    let fallback_recommendation := last_good_recommendation st in
    let last_predicted := last_predicted_rps st in
    match coerce_current_config payload fallback_config with
    | Some current_config =>
        recommendation ← lift (keep_current_response current_config last_predicted);
        mret (Decision "validation_error" recommendation)
    | None =>
        match fallback_recommendation with
        | Some recommendation => mret (Decision "validation_error" recommendation)
        | None =>
            config ← lift default_fallback_config;
            recommendation ← lift (keep_current_response config last_predicted);
            mret (Decision "validation_error" recommendation)
        end
    end.

End Entrypoint.

(** ** A model of the library functions

    Used to run the service on concrete requests.  [float] reads decimal
    literals and the spellings of the non-finite values; [fromisoformat]
    reads [YYYY-MM-DD], optionally followed by a separator, [HH:MM:SS], a
    fraction of 3 or 6 digits and an offset [+HH:MM]; [fromtimestamp] rounds
    to microseconds and raises outside the years 1 to 9999; Prophet is not
    installed; pydantic accepts the values that already have the type of the
    field. *)

Module PyModel.

Definition digit (c : ascii) : option Z :=
  let n := nat_of_ascii c in
  if ((48 <=? n) && (n <=? 57))%nat then Some (Z.of_nat n - 48)%Z else None.

(** The longest prefix of digits: its value, its length, and what follows. *)
Fixpoint digits (acc : Z) (count : nat) (s : list ascii) : Z * nat * list ascii :=
  match s with
  | c :: rest =>
      match digit c with
      | Some d => digits (10 * acc + d)%Z (S count) rest
      | None => (acc, count, s)
      end
  | [] => (acc, count, [])
  end.

(** Exactly [n] digits. *)
Definition fixed_digits (n : nat) (s : list ascii) : option (Z * list ascii) :=
  let '(v, count, _) := digits 0 0 (take n s) in
  if decide (count = n ∧ length (take n s) = n) then Some (v, drop n s) else None.

Definition expect (c : ascii) (s : list ascii) : option (list ascii) :=
  match s with
  | c' :: rest => if Ascii.eqb c c' then Some rest else None
  | [] => None
  end.

Definition sign (s : list ascii) : bool * list ascii :=
  match s with
  | c :: rest =>
      if Ascii.eqb c "-"%char then (true, rest)
      else if Ascii.eqb c "+"%char then (false, rest)
      else (false, s)
  | [] => (false, [])
  end.

Definition pow10 (e : Z) : Q :=
  if (e <? 0)%Z then 1 / inject_Z (10 ^ (- e)) else inject_Z (10 ^ e).

(** The largest magnitude that does not round to an infinity. *)
Definition float_overflow : Q := inject_Z (2 ^ 1024 - 2 ^ 970).

Definition finite_or_inf (q : Q) : pyfloat :=
  if Qle_bool float_overflow q then PInf
  else if Qle_bool q (- float_overflow) then NInf
  else Fin q.

Definition exponent (s : list ascii) : option Z :=
  match s with
  | [] => Some 0%Z
  | c :: rest =>
      if Ascii.eqb (lower_ascii c) "e"%char then
        let '(negative, rest) := sign rest in
        let '(v, count, rest) := digits 0 0 rest in
        match count, rest with
        | S _, [] => Some (if negative then - v else v)%Z
        | _, _ => None
        end
      else None
  end.

Definition py_float (s : string) : result pyfloat :=
  let '(negative, body) := sign (list_ascii_of_string (strip s)) in
  let word := lower (string_of_list_ascii body) in
  let signed (x : pyfloat) := if negative then PyFloat.neg x else x in
  if bool_decide (word = "inf" ∨ word = "infinity") then Ok (signed PInf)
  else if bool_decide (word = "nan") then Ok NaN
  else
    let '(int_part, int_count, rest) := digits 0 0 body in
    let '(frac_part, frac_count, rest) :=
      match expect "."%char rest with
      | Some rest => digits 0 0 rest
      | None => (0%Z, 0%nat, rest)
      end in
    match (int_count + frac_count)%nat, exponent rest with
    | S _, Some e =>
        let mantissa :=
          (inject_Z int_part + inject_Z frac_part * pow10 (- Z.of_nat frac_count))%Q in
        Ok (signed (finite_or_inf (mantissa * pow10 e)))
    | _, _ => Raise ValueError
    end.

(** Days from 1970-01-01 to a date of the proleptic Gregorian calendar. *)
Definition days_from_civil (y m d : Z) : Z :=
  let y := if (m <=? 2)%Z then (y - 1)%Z else y in
  let era := (y / 400)%Z in
  let yoe := (y - era * 400)%Z in
  let mp := if (m >? 2)%Z then (m - 3)%Z else (m + 9)%Z in
  let doy := ((153 * mp + 2) / 5 + d - 1)%Z in
  let doe := (yoe * 365 + yoe / 4 - yoe / 100 + doy)%Z in
  (era * 146097 + doe - 719468)%Z.

Definition is_leap (y : Z) : bool :=
  ((y mod 4 =? 0) && negb (y mod 100 =? 0) || (y mod 400 =? 0))%Z.

Definition days_in_month (y m : Z) : Z :=
  if (m =? 2)%Z then (if is_leap y then 29 else 28)
  else if ((m =? 4) || (m =? 6) || (m =? 9) || (m =? 11))%Z then 30
  else 31.

Definition between (lo x hi : Z) : bool := ((lo <=? x) && (x <=? hi))%Z.

(** [HH:MM:SS], a fraction and an offset; the result is in microseconds. *)
Definition iso_time (s : list ascii) : option (Z * option Z) :=
  '(hh, s) ← fixed_digits 2 s;
  s ← expect ":"%char s;
  '(mm, s) ← fixed_digits 2 s;
  s ← expect ":"%char s;
  '(ss, s) ← fixed_digits 2 s;
  '(frac, s) ←
    match expect "."%char s with
    | None => Some (0%Z, s)
    | Some s =>
        match fixed_digits 6 s with
        | Some r => Some r
        | None => '(ms, s) ← fixed_digits 3 s; Some (ms * 1000, s)%Z
        end
    end;
  offset ←
    match s with
    | [] => Some None
    | _ =>
        let '(negative, s) := sign s in
        '(oh, s) ← fixed_digits 2 s;
        s ← expect ":"%char s;
        '(om, s) ← fixed_digits 2 s;
        if bool_decide (s = []) && between 0 oh 23 && between 0 om 59 then
          let off := seconds (oh * 3600 + om * 60) in
          Some (Some (if negative then - off else off)%Z)
        else None
    end;
  if between 0 hh 23 && between 0 mm 59 && between 0 ss 59 then
    Some (seconds (hh * 3600 + mm * 60 + ss) + frac, offset)%Z
  else None.

Definition datetime_fromisoformat (s : string) : result pydatetime :=
  let parsed : option pydatetime :=
    let s := list_ascii_of_string s in
    '(y, s) ← fixed_digits 4 s;
    s ← expect "-"%char s;
    '(m, s) ← fixed_digits 2 s;
    s ← expect "-"%char s;
    '(d, s) ← fixed_digits 2 s;
    if between 1 y 9999 && between 1 m 12 && between 1 d (days_in_month y m) then
      let midnight := seconds (days_from_civil y m d * 86400) in
      match s with
      | [] => Some {| dt_us := midnight; dt_aware := false |}
      | _ :: s =>
          '(time, offset) ← iso_time s;
          match offset with
          | None => Some {| dt_us := midnight + time; dt_aware := false |}
          | Some off => Some {| dt_us := midnight + time - off; dt_aware := true |}
          end
      end
    else None in
  match parsed with
  | Some d => Ok d
  | None => Raise ValueError
  end.

(** The first and the last instant a [datetime] holds, in microseconds. *)
Definition datetime_min : Z := seconds (days_from_civil 1 1 1 * 86400).
Definition datetime_max : Z := (seconds (days_from_civil 10000 1 1 * 86400) - 1)%Z.

Definition datetime_fromtimestamp (x : pyfloat) : result Z :=
  match x with
  | NaN => Raise ValueError
  | PInf | NInf => Raise OverflowError
  | Fin q =>
      if Qle_bool (inject_Z (2 ^ 63)) (Qabs q) then Raise OverflowError
      else
        let us := PyFloat.round_half_even (q * 1000000) in
        if between datetime_min us datetime_max then Ok us
        else if Qle_bool (inject_Z (10 ^ 17)) (Qabs q) then Raise OSError
        else Raise ValueError
  end.

Definition str_validator (value : json) : option string :=
  match value with JStr s => Some s | _ => None end.

Definition float_validator (value : json) : option pyfloat :=
  match value with
  | JFloat f => Some f
  | JInt z => Some (PyFloat.of_Z z)
  | _ => None
  end.

Definition int_validator (value : json) : option Z :=
  match value with JInt z => Some z | _ => None end.

Definition lib : PyLib := {|
  float_of_str := py_float;
  fromisoformat := datetime_fromisoformat;
  fromtimestamp := datetime_fromtimestamp;
  prophet_yhat := None;
  coerce_str := str_validator;
  coerce_float := float_validator;
  coerce_int := int_validator;
|}.

End PyModel.

(** ** Metrics *)

(** The metrics registry: the counter [ai_limit_config_requests_total] by its
    label [result], the gauges, and the gauge [ai_last_algorithm] by its
    label [algorithm].  A labelled metric has no sample for a label value
    until it is first used. *)
Record Metrics : Type := {
  REQUESTS_TOTAL : gmap string Z;
  LAST_OBSERVED_RPS : pyfloat;
  LAST_PREDICTED_RPS : pyfloat;
  LAST_RECOMMENDED_RPS : pyfloat;
  LAST_RECOMMENDED_LIMIT : pyfloat;
  LAST_RECOMMENDED_WINDOW_SECONDS : pyfloat;
  LAST_RECOMMENDED_CAPACITY : pyfloat;
  LAST_RECOMMENDED_FILL_RATE : pyfloat;
  LAST_VALID_FOR_SECONDS : pyfloat;
  LAST_ALGORITHM : gmap string pyfloat;
  HISTORY_POINTS : pyfloat;
}.

Definition initial_metrics : Metrics := {|
  REQUESTS_TOTAL := ∅;
  LAST_OBSERVED_RPS := Fin 0;
  LAST_PREDICTED_RPS := Fin 0;
  LAST_RECOMMENDED_RPS := Fin 0;
  LAST_RECOMMENDED_LIMIT := Fin 0;
  LAST_RECOMMENDED_WINDOW_SECONDS := Fin 0;
  LAST_RECOMMENDED_CAPACITY := Fin 0;
  LAST_RECOMMENDED_FILL_RATE := Fin 0;
  LAST_VALID_FOR_SECONDS := Fin 0;
  LAST_ALGORITHM := ∅;
  HISTORY_POINTS := Fin 0;
|}.

(** [REQUESTS_TOTAL.labels(result=result).inc()] *)
Definition inc_requests (label : string) (counts : gmap string Z) : gmap string Z :=
  <[label := (default 0 (counts !! label) + 1)%Z]> counts.

(** [float(x or 0)] for an optional [int] and an optional [float]. *)
Definition int_or_zero (x : option Z) : pyfloat := PyFloat.of_Z (default 0%Z x).

Definition float_or_zero (x : option pyfloat) : pyfloat :=
  match x with
  | Some (Fin q) => if Qeq_bool q 0 then PyFloat.of_Z 0 else Fin q
  | Some v => v
  | None => PyFloat.of_Z 0
  end.

Definition recommendation_rps (recommendation : LimitConfigResponse)
  : result (option pyfloat) :=
  if fixed_or_sliding (r_algorithm recommendation) then
    match r_limit recommendation, r_window recommendation with
    | Some l, Some w =>
        if decide (w = 0%Z) then Ok None
        else Some <$> PyFloat.div (PyFloat.of_Z l) (PyFloat.of_Z w)
    | _, _ => Ok None
    end
  else if bool_decide (r_algorithm recommendation = "token") then
    Ok (r_fillRate recommendation)
  else Ok None.

(** Returns the gauge [ai_last_algorithm]. *)
Definition update_algorithm_gauge (algo : string) (gauge : gmap string pyfloat)
  : gmap string pyfloat :=
  if negb (bool_decide (algo ∈ ALLOWED_ALGORITHMS)) then gauge
  else
    foldl (λ g a, <[a := if bool_decide (a = algo) then Fin 1 else Fin 0]> g)
      gauge ALLOWED_ALGORITHMS.

(** The gauges of the limits, set by both [update_metrics] and
    [update_metrics_from_response] from the recommendation. *)
Definition limit_gauges (recommendation : LimitConfigResponse)
  (current : pyfloat * pyfloat * pyfloat * pyfloat)
  : pyfloat * pyfloat * pyfloat * pyfloat :=
  if fixed_or_sliding (r_algorithm recommendation) then
    (int_or_zero (r_limit recommendation), int_or_zero (r_window recommendation),
     Fin 0, Fin 0)
  else if bool_decide (r_algorithm recommendation = "token") then
    (Fin 0, Fin 0,
     int_or_zero (r_capacity recommendation), float_or_zero (r_fillRate recommendation))
  else current.

Definition update_metrics
  (request : LimitConfigRequest) (predicted_rps : pyfloat)
  (recommendation : LimitConfigResponse) (history_len : Z) (label : string)
  (m : Metrics) : result Metrics :=
  rec_rps ← recommendation_rps recommendation;
  let '(l, w, c, f) :=
    limit_gauges recommendation
      (LAST_RECOMMENDED_LIMIT m, LAST_RECOMMENDED_WINDOW_SECONDS m,
       LAST_RECOMMENDED_CAPACITY m, LAST_RECOMMENDED_FILL_RATE m) in
  Ok {| REQUESTS_TOTAL := inc_requests label (REQUESTS_TOTAL m);
        LAST_OBSERVED_RPS := observedRps request;
        LAST_PREDICTED_RPS := predicted_rps;
        LAST_RECOMMENDED_RPS := default (LAST_RECOMMENDED_RPS m) rec_rps;
        LAST_RECOMMENDED_LIMIT := l;
        LAST_RECOMMENDED_WINDOW_SECONDS := w;
        LAST_RECOMMENDED_CAPACITY := c;
        LAST_RECOMMENDED_FILL_RATE := f;
        LAST_VALID_FOR_SECONDS := int_or_zero (r_validFor recommendation);
        LAST_ALGORITHM :=
          update_algorithm_gauge (r_algorithm recommendation) (LAST_ALGORITHM m);
        HISTORY_POINTS := PyFloat.of_Z history_len |}.

(** The value [set_gauge_value] stores. *)
Definition set_gauge_value (value : option pyfloat) : pyfloat := default NaN value.

Definition update_metrics_from_response
  (recommendation : LimitConfigResponse) (observed_rps predicted_rps : option pyfloat)
  (history_len : option Z) (label : string) (m : Metrics) : result Metrics :=
  rec_rps ← recommendation_rps recommendation;
  let '(l, w, c, f) :=
    limit_gauges recommendation
      (LAST_RECOMMENDED_LIMIT m, LAST_RECOMMENDED_WINDOW_SECONDS m,
       LAST_RECOMMENDED_CAPACITY m, LAST_RECOMMENDED_FILL_RATE m) in
  Ok {| REQUESTS_TOTAL := inc_requests label (REQUESTS_TOTAL m);
        LAST_OBSERVED_RPS := set_gauge_value observed_rps;
        LAST_PREDICTED_RPS := set_gauge_value predicted_rps;
        LAST_RECOMMENDED_RPS := set_gauge_value rec_rps;
        LAST_RECOMMENDED_LIMIT := l;
        LAST_RECOMMENDED_WINDOW_SECONDS := w;
        LAST_RECOMMENDED_CAPACITY := c;
        LAST_RECOMMENDED_FILL_RATE := f;
        LAST_VALID_FOR_SECONDS := int_or_zero (r_validFor recommendation);
        LAST_ALGORITHM :=
          update_algorithm_gauge (r_algorithm recommendation) (LAST_ALGORITHM m);
        HISTORY_POINTS := set_gauge_value (PyFloat.of_Z <$> history_len) |}.

(** * Vocabulary of the properties *)

(** ** The time-series buffer *)






(** ** The fallback forecast *)

(** The last [k] points of a list. *)
Definition last_points {A} (k : Z) (points : list A) : list A :=
  drop (length points - Z.to_nat k) points.

(** The forecast over a window that is not empty. *)
Definition forecast_of_window
  (window : list TimePoint) (horizon : Z) (v : pyfloat) : Prop :=
  ∃ start end_,
    head window = Some start ∧ last window = Some end_ ∧
    if bool_decide (ts end_ - ts start ≤ 0)%Z then v = rps end_
    else ∃ slope,
        PyFloat.div (rps end_ - rps start) (total_seconds (ts end_ - ts start))
          = Ok slope
        ∧ v = PyFloat.max (Fin 0) (rps end_ + slope * PyFloat.of_Z horizon).

(** ** The recommendation policy *)

Section PolicyVocabulary.
Context {env : Env} {lib : PyLib}.



(** The path [recommend_config] takes, from what it computed. *)
Inductive path : Type :=
| AlreadyEqual
| SmallChange
| RecentChange
| Accepted.

Definition path_of (equal same_algorithm small recent : bool) : path :=
  if equal then AlreadyEqual
  else if same_algorithm && small then SmallChange
  else if recent then RecentChange
  else Accepted.

(** The state [recommend_config] leaves on the accepting path. *)
Definition accepted_state
  (state : RecommendationState) (desired current : string) (now : Z)
  : RecommendationState :=
  {| last_change_at := Some now;
     last_algo_switch_at :=
       if bool_decide (desired = current) then last_algo_switch_at state
       else Some now;
     last_good_recommendation := last_good_recommendation state;
     last_good_config := last_good_config state;
     last_predicted_rps := last_predicted_rps state |}.

(** What a call that returns has computed. *)
Inductive recommended
  (request : LimitConfigRequest) (predicted : pyfloat)
  (history : list TimePoint) (state : RecommendationState) (now : Z)
  (recommendation : LimitConfigResponse) (state' : RecommendationState) : Prop :=
| Recommended
    (current_limit : pyfloat) (desired : string)
    (proposal : LimitConfigResponse) (ratio : pyfloat) (equal : bool) :
  let current_config := currentConfig request in
  let predicted_rps := clamp predicted (Fin 0) max_rps in
  let target := target_rps request current_limit predicted_rps in
  current_rps_limit current_config = Ok current_limit →
  desired_algorithm current_config history state now = Ok desired →
  build_response desired target current_config (Some (PyFloat.round3 predicted_rps))
    = Ok proposal →
  change_ratio target current_limit = Ok ratio →
  configs_equal current_config proposal = Ok equal →
  match
    path_of equal (bool_decide (desired = algorithm current_config))
      (ratio <? MIN_RELATIVE_CHANGE) (recent_change_block state now)
  with
  | AlreadyEqual => recommendation = proposal ∧ state' = state
  | SmallChange | RecentChange =>
      build_response (algorithm current_config) current_limit current_config
        (Some (PyFloat.round3 predicted_rps)) = Ok recommendation
      ∧ state' = state
  | Accepted =>
      recommendation = proposal
      ∧ state' = accepted_state state desired (algorithm current_config) now
  end →
  recommended request predicted history state now recommendation state'.

End PolicyVocabulary.

(** ** Requests and configs of the scenarios *)

Definition fixed_config (l : Q) (w : Z) : LimitConfigIn :=
  {| algorithm := "fixed"; limit := Some (Fin l); window := Some w;
     capacity := None; fillRate := None |}.

Definition token_config (c : Z) (f : Q) : LimitConfigIn :=
  {| algorithm := "token"; limit := None; window := None;
     capacity := Some c; fillRate := Some (Fin f) |}.

(** A request with no timestamp, latency or error count. *)
Definition report (observed : Q) (rejected : option pyfloat) (config : LimitConfigIn)
  : LimitConfigRequest :=
  {| timestamp := None; observedRps := Fin observed; rejectedRate := rejected;
     latencyP95 := None; errors5xx := None; currentConfig := config |}.


(** The default environment with algorithm switches enabled and burstiness
    judged on the last two points. *)
Definition switching_env : Env := {|
  HISTORY_WINDOW_SECONDS := 3600;
  MAX_HISTORY_POINTS := 5000;
  MIN_HISTORY_POINTS := 10;
  FORECAST_SECONDS := 60;
  FALLBACK_WINDOW_POINTS := 5;
  MIN_CHANGE_INTERVAL_SECONDS := 30;
  MIN_RELATIVE_CHANGE := Fin (1 # 10);
  INCREASE_THRESHOLD := Fin (1 # 10);
  DECREASE_THRESHOLD := Fin (2 # 10);
  INCREASE_HEADROOM := Fin (5 # 100);
  DECREASE_FACTOR := Fin (7 # 10);
  MIN_RPS := Fin 1;
  MAX_RPS := Fin 10000;
  REJECTED_RATE_THRESHOLD := Fin (1 # 10);
  LATENCY_P95_THRESHOLD := Fin 1;
  ERRORS_5XX_THRESHOLD := 1;
  DDOS_MULTIPLIER := Fin 2;
  DEFAULT_WINDOW_SECONDS := 60;
  TOKEN_CAPACITY_SECONDS := Fin 2;
  MAX_CAPACITY := 0;
  ALLOW_ALGO_SWITCH := true;
  MIN_ALGO_SWITCH_INTERVAL_SECONDS := 300;
  BURSTINESS_THRESHOLD := Fin (15 # 10);
  BURSTINESS_POINTS := 2;
|}.

(** A reply that is a 200 on the happy path with the given limit and
    window. *)
Definition answers (l w : Z) (reply : result Reply) : bool :=
  match reply with
  | Ok (Decision label body) =>
      bool_decide (label = "ok"%string ∧ r_algorithm body = "fixed"%string
                   ∧ r_limit body = Some l ∧ r_window body = Some w)
  | _ => false
  end.

Section Runs.
Context {env : Env} {lib : PyLib}.

(** The same request sent [n] times, one second apart, to a fresh process:
    the world at the end and the replies. *)
Definition repeated (n : nat) (request : LimitConfigRequest)
  : World * list (result Reply) :=
  foldl (λ '(w, replies) i,
           let '(w1, reply) := limit_config request (seconds i) (seconds i) w in
           (w1, replies ++ [reply]))
    (initial_world, []) (Z.of_nat <$> seq 0 n).

End Runs.

(** ** Runs of the handlers *)

Section Reachability.
Context {env : Env} {lib : PyLib}.



End Reachability.


(** * Properties *)

(** ** The time-series buffer *)

Section Buffer.
Import DataCollector.

















End Buffer.



(** ** Facts on floats *)

Lemma ltb_leb x y : (x <? y) = true → (x <=? y) = true.
Proof.
  destruct x as [a| | |], y as [b| | |]; simpl; try done.
  unfold PyFloat.Qltb. rewrite negb_true_iff.
  intros Hnle. apply Qle_bool_iff. apply Qlt_le_weak, Qnot_le_lt.
  intros Hle. apply Qle_bool_iff in Hle. congruence.
Qed.

Lemma max_zero_nonneg x : (Fin 0 <=? PyFloat.max (Fin 0) x) = true.
Proof.
  unfold PyFloat.max, PyFloat.gtb.
  destruct (Fin 0 <? x) eqn:Hlt; [by apply ltb_leb|done].
Qed.

Lemma total_seconds_nonpos us :
  (total_seconds us <=? Fin 0) = bool_decide (us ≤ 0)%Z.
Proof.
  unfold total_seconds. simpl. case_bool_decide as Hle.
  - apply Qle_bool_iff. unfold Qle. simpl. lia.
  - apply not_true_is_false. intros H. apply Qle_bool_iff in H.
    unfold Qle in H. simpl in H. lia.
Qed.

Lemma div_total_seconds x us :
  (0 < us)%Z → ∃ slope, PyFloat.div x (total_seconds us) = Ok slope.
Proof.
  intros Hpos. unfold PyFloat.div, total_seconds, PyFloat.Qsign. simpl.
  destruct (Z.compare_spec us 0) as [|?|_]; [lia..|]. eauto.
Qed.

(** ** The fallback forecast *)

Section FallbackForecast.
Context {env : Env}.

Lemma slice_from_last {A} (m : Z) (points : list A) :
  (1 ≤ m ≤ Z.of_nat (length points))%Z →
  slice_from (- m) points = last_points m points.
Proof.
  intros Hm. unfold slice_from, last_points.
  destruct (Z.ltb_spec (- m) 0); [|lia].
  f_equal. lia.
Qed.

Lemma last_points_length {A} (m : Z) (points : list A) :
  (0 ≤ m ≤ Z.of_nat (length points))%Z →
  Z.of_nat (length (last_points m points)) = m.
Proof. intros Hm. unfold last_points. rewrite length_drop. lia. Qed.

Lemma last_points_subseteq {A} (m : Z) (points : list A) :
  last_points m points ⊆ points.
Proof.
  unfold last_points. intros x Hx.
  rewrite <- (take_drop (length points - Z.to_nat m) points).
  apply elem_of_app. by right.
Qed.

Lemma fallback_forecast_nonempty (points : list TimePoint) (horizon : Z) :
  points ≠ [] →
  fallback_forecast points horizon =
    let n := Z.of_nat (length points) in
    let window := slice_from (- Z.max 1 (Z.min n FALLBACK_WINDOW_POINTS)) points in
    match window, last window with
    | start :: _, Some end_ =>
        if decide (length window = 1%nat) then Ok (rps end_)
        else
          let total := total_seconds (ts end_ - ts start) in
          if total <=? Fin 0 then Ok (rps end_)
          else
            slope ← PyFloat.div (rps end_ - rps start) total;
            Ok (PyFloat.max (Fin 0) (rps end_ + slope * PyFloat.of_Z horizon))
    | _, _ => Raise IndexError
    end.
Proof. by destruct points. Qed.

(** C8: on a list of points that is not empty the fallback forecast returns
    a value; with [k = min(len(points), FallbackWindowPoints)], it is the RPS
    of the single point of the window when [k = 1] and, when [k >= 2], the
    RPS of the last point when the window spans no time, and otherwise
    [max(0, rps_end + slope * horizon)] with
    [slope = (rps_end - rps_start) / (ts_end - ts_start)]; the value is
    [>= 0] when no point has a negative RPS. *)
Theorem fallback_forecast_cases (points : list TimePoint) (horizon : Z) :
  points ≠ [] →
  let k := Z.min (Z.of_nat (length points)) FALLBACK_WINDOW_POINTS in
  let window := last_points k points in
  ∃ v,
    fallback_forecast points horizon = Ok v
    ∧ (k = 1%Z → ∃ p, window = [p] ∧ v = rps p)
    ∧ (2 ≤ k → forecast_of_window window horizon v)%Z
    ∧ (Forall (λ p, (Fin 0 <=? rps p) = true) points → (Fin 0 <=? v) = true).
Proof.
  intros Hne k window.
  assert (1 ≤ Z.of_nat (length points))%Z as Hlen
    by (destruct points; [done|simpl; lia]).
  set (m := Z.max 1 k).
  assert (1 ≤ m ≤ Z.of_nat (length points))%Z as Hm by (subst m k; lia).
  rewrite fallback_forecast_nonempty by done. cbv zeta.
  fold k. fold m. rewrite (slice_from_last m points Hm).
  pose proof (last_points_length m points ltac:(lia)) as Hwlen.
  pose proof (last_points_subseteq m points) as Hsub.
  assert (k = 1%Z → last_points k points = last_points m points) as Hk1
    by (intros ->; done).
  assert (2 ≤ k → last_points k points = last_points m points)%Z as Hk2
    by (intros ?; subst m; by rewrite Z.max_r by lia).
  assert (k = 1 ∨ 2 ≤ k → m = k)%Z as Hmk by (subst m; lia).
  subst window. set (w := last_points m points) in *.
  destruct w as [|start w'] eqn:Hw; [simpl in Hwlen; lia|].
  destruct (last (start :: w')) as [end_|] eqn:Hlast;
    [|by apply last_None in Hlast].
  assert (end_ ∈ points) as Hend
    by (apply Hsub; eapply last_Some_elem_of; done).
  assert (start ∈ points) as Hstart by (apply Hsub; constructor).
  destruct (decide (length (start :: w') = 1%nat)) as [Hone|Hmany].
  { exists (rps end_). split_and!; [done| | |].
    - intros Hk. rewrite (Hk1 Hk). destruct w'; [|done].
      simpl in Hlast. injection Hlast as <-. eauto.
    - intros Hk. rewrite <- Hmk in Hk by lia. rewrite Hone in Hwlen. lia.
    - rewrite Forall_forall. intros Hall. by apply Hall. }
  rewrite total_seconds_nonpos.
  case_bool_decide as Hspan.
  { exists (rps end_). split_and!; [done| | |].
    - intros Hk. rewrite Hmk in Hwlen by lia. destruct w' ; [done|].
      simpl in Hwlen. lia.
    - intros Hk. rewrite (Hk2 Hk). exists start, end_. split_and!; [done..|].
      by rewrite bool_decide_eq_true_2.
    - rewrite Forall_forall. intros Hall. by apply Hall. }
  destruct (div_total_seconds (rps end_ - rps start) (ts end_ - ts start))
    as [slope Hslope]; [lia|].
  rewrite Hslope. simpl.
  eexists. split_and!; [done| | |].
  - intros Hk. rewrite Hmk in Hwlen by lia. destruct w'; [done|].
    simpl in Hwlen. lia.
  - intros Hk. rewrite (Hk2 Hk). exists start, end_. split_and!; [done..|].
    rewrite bool_decide_eq_false_2 by done. eauto.
  - intros _. apply max_zero_nonneg.
Qed.

End FallbackForecast.

Lemma fallback_forecast_cases_witness :
  let points := [{| ts := 0; rps := Fin 100 |}; {| ts := 1000000; rps := Fin 110 |}] in
  points ≠ []
  ∧ ∃ v, fallback_forecast (env := default_env) points 60 = Ok v
         ∧ forecast_of_window points 60 v
         ∧ (Fin 0 <=? v) = true.
Proof.
  intros points. split; [done|].
  destruct (fallback_forecast_cases (env := default_env) points 60 ltac:(done))
    as (v & Hv & _ & Hwindow & Hnonneg).
  exists v. split_and!; [done| |].
  - by apply Hwindow.
  - apply Hnonneg. by repeat constructor.
Defined.

(** ** The recommendation policy *)

(** Inversion of a bind of the [result] monad in a hypothesis. *)
Lemma bind_Ok {A B} (c : result A) (f : A → result B) (b : B) :
  c ≫= f = Ok b → ∃ a, c = Ok a ∧ f a = Ok b.
Proof. destruct c as [a|e]; simpl; [eauto|done]. Qed.

Ltac inv_bind H :=
  let a := fresh "v" in
  let Ha := fresh "Hv" in
  apply bind_Ok in H as (a & Ha & H).

Section PolicyFacts.
Context {env : Env} {lib : PyLib}.



Lemma recommend_config_inv request predicted history state now recommendation state' :
  recommend_config request predicted history state now = Ok (recommendation, state') →
  recommended request predicted history state now recommendation state'.
Proof.
  intros H. unfold recommend_config in H.
  inv_bind H. inv_bind H. inv_bind H. inv_bind H. inv_bind H.
  rename v into current_limit, v0 into desired, v1 into proposal,
    v2 into ratio, v3 into equal.
  apply (Recommended _ _ _ _ _ _ _ current_limit desired proposal ratio equal);
    try done.
  unfold path_of.
  destruct equal; [by injection H as <- <-|].
  destruct (bool_decide (desired = _) && (ratio <? _)) eqn:Hsmall.
  { inv_bind H. by injection H as <- <-. }
  destruct (recent_change_block state now).
  { inv_bind H. by injection H as <- <-. }
  injection H as <- <-. split; [done|].
  unfold accepted_state. by case_bool_decide.
Qed.

Lemma recent_change_block_spec state now :
  recent_change_block state now = true
  ↔ ∃ prev, last_change_at state = Some prev
            ∧ (now - prev < seconds MIN_CHANGE_INTERVAL_SECONDS)%Z.
Proof.
  unfold recent_change_block, total_seconds, PyFloat.of_Z, seconds.
  destruct (last_change_at state) as [prev|]; [|split; [done|by intros (? & ? & ?)]].
  simpl. unfold PyFloat.Qltb. rewrite negb_true_iff.
  assert (Qle_bool (inject_Z MIN_CHANGE_INTERVAL_SECONDS) (now - prev # 1000000) = true
          ↔ (MIN_CHANGE_INTERVAL_SECONDS * 1000000 ≤ now - prev)%Z) as Hle.
  { rewrite Qle_bool_iff. unfold Qle. simpl. lia. }
  split.
  - intros Hfalse. exists prev. split; [done|].
    destruct (Z.lt_ge_cases (now - prev) (MIN_CHANGE_INTERVAL_SECONDS * 1000000));
      [done|].
    apply Hle in H. congruence.
  - intros (? & [= <-] & Hlt). apply not_true_is_false. rewrite Hle. lia.
Qed.


(** C5: a call of [recommend_config] that returns leaves the state as it was
    on each suppressed path (the proposal equals the current config; the
    algorithm is kept and the change ratio is below [MinRelativeChange]; the
    last change is less than [MinChangeIntervalSeconds] old); otherwise it
    sets [lastChangeAt] to [now], and [lastAlgoSwitchAt] when the algorithm
    changes.  So [lastChangeAt] is assigned only when it was unset or at
    least [MinChangeIntervalSeconds] before [now]. *)
Theorem recommend_config_change_interval
  request predicted history state now recommendation state' :
  recommend_config request predicted history state now = Ok (recommendation, state') →
  ∃ current_limit desired proposal ratio,
    let current_config := currentConfig request in
    let predicted_rps := clamp predicted (Fin 0) max_rps in
    let target := target_rps request current_limit predicted_rps in
    let suppressed :=
      configs_equal current_config proposal = Ok true
      ∨ (desired = algorithm current_config ∧ (ratio <? MIN_RELATIVE_CHANGE) = true)
      ∨ (∃ prev, last_change_at state = Some prev
                 ∧ (now - prev < seconds MIN_CHANGE_INTERVAL_SECONDS)%Z) in
    current_rps_limit current_config = Ok current_limit
    ∧ desired_algorithm current_config history state now = Ok desired
    ∧ build_response desired target current_config
        (Some (PyFloat.round3 predicted_rps)) = Ok proposal
    ∧ change_ratio target current_limit = Ok ratio
    ∧ (suppressed → state' = state)
    ∧ (¬ suppressed →
       state' = accepted_state state desired (algorithm current_config) now)
    ∧ (state' = state
       ∨ last_change_at state' = Some now
         ∧ (last_change_at state = None
            ∨ ∃ prev, last_change_at state = Some prev
                      ∧ (seconds MIN_CHANGE_INTERVAL_SECONDS ≤ now - prev)%Z)).
Proof.
  intros H. apply recommend_config_inv in H
    as [current_limit desired proposal ratio equal cc p target
        Hlimit Hdesired Hproposal Hratio Hequal Hpath].
  exists current_limit, desired, proposal, ratio. simpl.
  fold cc p target. rewrite Hequal.
  split_and!; try done.
  - intros Hsuppressed. unfold path_of in Hpath.
    destruct equal; [by destruct Hpath|].
    destruct (bool_decide _ && _) eqn:Hsmall; [by destruct Hpath|].
    destruct (recent_change_block state now) eqn:Hrecent; [by destruct Hpath|].
    exfalso. destruct Hsuppressed as [[=]|[[Hsame Hlt]|Hprev]].
    + apply andb_false_iff in Hsmall as [Hne|]; [|congruence].
      by apply bool_decide_eq_false in Hne.
    + apply recent_change_block_spec in Hprev. congruence.
  - intros Hnot. unfold path_of in Hpath.
    destruct equal; [exfalso; apply Hnot; by left|].
    destruct (bool_decide _ && _) eqn:Hsmall.
    { exfalso. apply Hnot. right. left.
      apply andb_true_iff in Hsmall as [Hsame ?].
      by apply bool_decide_eq_true in Hsame. }
    destruct (recent_change_block state now) eqn:Hrecent.
    { exfalso. apply Hnot. right. right. by apply recent_change_block_spec. }
    by destruct Hpath.
  - unfold path_of in Hpath.
    destruct equal; [left; by destruct Hpath|].
    destruct (bool_decide _ && _); [left; by destruct Hpath|].
    destruct (recent_change_block state now) eqn:Hrecent; [left; by destruct Hpath|].
    destruct Hpath as [_ ->]. right. split; [done|].
    destruct (last_change_at state) as [prev|] eqn:Hprev; [|by left].
    right. exists prev. split; [done|].
    destruct (Z.lt_ge_cases (now - prev) (seconds MIN_CHANGE_INTERVAL_SECONDS))
      as [Hlt|]; [|done].
    assert (recent_change_block state now = true); [|congruence].
    apply recent_change_block_spec. eauto.
Qed.

End PolicyFacts.

(** ** The handlers *)

Section HandlerFacts.
Context {env : Env} {lib : PyLib}.

(** [limit_config] with the module-level objects written out. *)
Lemma limit_config_unfold request received_at clock w :
  limit_config request received_at clock w =
  match parse_timestamp (timestamp request) clock with
  | Raise e => (w, Raise e)
  | Ok sample_ts =>
      let collector1 :=
        DataCollector.add_point (collector w) sample_ts (observedRps request) in
      let history := DataCollector.snapshot collector1 in
      match Forecaster.forecast forecaster history with
      | Raise e => ({| collector := collector1; state := state w |}, Raise e)
      | Ok forecast =>
          let predicted :=
            clamp (default (observedRps request) forecast) (Fin 0) max_rps in
          let predicted_rps := PyFloat.round3 predicted in
          let state1 := set_last_predicted_rps (state w) predicted_rps in
          let w1 := {| collector := collector1; state := state1 |} in
          match validate_current_config (currentConfig request) with
          | Some _ =>
              (w1,
               fallback_config ←
                 match last_good_config (state w) with
                 | None => default_fallback_config
                 | Some config => Ok config
                 end;
               recommendation ←
                 keep_current_response fallback_config (Some predicted_rps);
               Ok (Decision "invalid_config" recommendation))
          | None =>
              match recommend_config request predicted history state1 received_at with
              | Raise e => (w1, Raise e)
              | Ok (recommendation, state2) =>
                  ({| collector := collector1;
                      state := set_last_good state2 recommendation
                                 (currentConfig request) |},
                   Ok (Decision "ok" recommendation))
              end
          end
      end
  end.
Proof.
  unfold limit_config, mbind, handler_bind, lift, collector_add_point,
    collector_snapshot, get_state, put_state. simpl.
  destruct (parse_timestamp _ _) as [sample_ts|e]; [|done]. simpl.
  destruct (Forecaster.forecast _ _) as [forecast|e]; [|done]. simpl.
  destruct (validate_current_config _) as [err|]; simpl.
  - unfold mret, handler_ret.
    destruct (last_good_config (state w)); simpl.
    + by destruct (keep_current_response _ _).
    + destruct default_fallback_config; simpl; [|done].
      by destruct (keep_current_response _ _).
  - by destruct (recommend_config _ _ _ _ _) as [[recommendation state2]|e].
Qed.

(** The handler of malformed bodies, with the module-level objects written
    out: it writes nothing. *)
Lemma request_validation_exception_handler_unfold payload w :
  request_validation_exception_handler "/v1/limit-config" payload w =
  (w,
   match coerce_current_config payload (last_good_config (state w)) with
   | Some current_config =>
       Decision "validation_error"
         <$> keep_current_response current_config (last_predicted_rps (state w))
   | None =>
       match last_good_recommendation (state w) with
       | Some recommendation => Ok (Decision "validation_error" recommendation)
       | None =>
           config ← default_fallback_config;
           Decision "validation_error"
             <$> keep_current_response config (last_predicted_rps (state w))
       end
   end).
Proof.
  unfold request_validation_exception_handler, mbind, handler_bind, lift,
    get_state, mret, handler_ret. simpl.
  destruct (coerce_current_config _ _); simpl.
  - by destruct (keep_current_response _ _).
  - destruct (last_good_recommendation _); [done|].
    destruct default_fallback_config; simpl; [|done].
    by destruct (keep_current_response _ _).
Qed.

Lemma request_validation_exception_handler_world path payload w :
  (request_validation_exception_handler path payload w).1 = w.
Proof.
  destruct (decide (path = "/v1/limit-config")) as [->|Hne].
  - by rewrite request_validation_exception_handler_unfold.
  - unfold request_validation_exception_handler.
    by rewrite bool_decide_eq_false_2.
Qed.

(** C7: [lastGoodConfig] and [lastGoodRecommendation] are assigned only on
    the happy path, after [recommend_config] has returned, to the request's
    [currentConfig] and to the recommendation; the invalid-config branch, a
    request that ends in an exception, and the handler of malformed bodies
    leave both as they were. *)
Theorem last_good_assigned_on_happy_path_only
  request received_at clock path payload (w : World) :
  let '(w', out) := limit_config request received_at clock w in
  match validate_current_config (currentConfig request), out with
  | None, Ok reply =>
      ∃ recommendation predicted history state0 state1,
        recommend_config request predicted history state0 received_at
          = Ok (recommendation, state1)
        ∧ reply = Decision "ok" recommendation
        ∧ last_good_config (state w') = Some (currentConfig request)
        ∧ last_good_recommendation (state w') = Some recommendation
  | _, _ =>
      last_good_config (state w') = last_good_config (state w)
      ∧ last_good_recommendation (state w') = last_good_recommendation (state w)
  end
  ∧ (request_validation_exception_handler path payload w).1 = w.
Proof.
  rewrite limit_config_unfold.
  destruct (parse_timestamp _ _) as [sample_ts|e]; simpl.
  2: { split; [|apply request_validation_exception_handler_world].
       by destruct (validate_current_config _). }
  destruct (Forecaster.forecast _ _) as [forecast|e]; simpl.
  2: { split; [|apply request_validation_exception_handler_world].
       by destruct (validate_current_config _). }
  destruct (validate_current_config _) as [err|] eqn:Hvalid; simpl.
  { split; [done|apply request_validation_exception_handler_world]. }
  destruct (recommend_config _ _ _ _ _) as [[recommendation state2]|e] eqn:Hrec;
    simpl.
  2: { split; [done|apply request_validation_exception_handler_world]. }
  split; [|apply request_validation_exception_handler_world].
  eauto 10.
Qed.




End HandlerFacts.

(** ** Rebuilding the current configuration *)

Section KeepCurrent.
Context {env : Env} {lib : PyLib}.




Lemma Qsign_inject w : (0 < w)%Z → PyFloat.Qsign (inject_Z w) = Gt.
Proof. intros Hw. unfold PyFloat.Qsign. simpl. by apply Z.compare_gt_iff. Qed.


End KeepCurrent.

(** ** Truncation of a fractional limit *)

Section Truncation.
Context {env : Env}.

Lemma Qfloor_unit q : (0 < q)%Q → (q < 1)%Q → Qfloor q = 0%Z.
Proof.
  intros Hpos Hlt.
  pose proof (Qfloor_le q) as Hle. pose proof (Qlt_floor q) as Hup.
  assert (inject_Z (Qfloor q) < inject_Z 1)%Q as H1
    by (eapply Qle_lt_trans; eassumption).
  assert (inject_Z 0 < inject_Z (Qfloor q + 1))%Q as H0
    by (eapply Qlt_trans; eassumption).
  rewrite <- Zlt_Qlt in H1, H0. lia.
Qed.

(** C10: a [fixed] or [sliding] config whose limit is a real strictly
    between 0 and 1, such as [{algorithm: fixed, limit: 0.5, window: 1}],
    passes [validate_current_config]; [keep_current_response] truncates its
    limit to 0, and the response read back as a config fails
    [validate_current_config]. *)
Theorem fractional_limit_is_truncated_to_zero
  (config : LimitConfigIn) (q : Q) (w : Z) (p : option pyfloat) :
  fixed_or_sliding (algorithm config) = true →
  limit config = Some (Fin q) → (0 < q)%Q → (q < 1)%Q →
  window config = Some w → (0 < w)%Z →
  validate_current_config config = None
  ∧ ∃ r, keep_current_response config p = Ok r
         ∧ r_limit r = Some 0%Z
         ∧ validate_current_config (as_incoming r)
           = Some "limit/window must be positive"%string.
Proof.
  intros Halgo Hlimit Hpos Hlt Hwindow Hw.
  assert (Qle_bool q 0 = false) as Hq0.
  { apply not_true_is_false. intros Hle. apply Qle_bool_iff in Hle.
    by apply Qle_not_lt in Hle. }
  assert (algorithm config ∈ ALLOWED_ALGORITHMS ∧ algorithm config ≠ "token"%string)
    as [Hallowed Htoken].
  { unfold fixed_or_sliding in Halgo. apply bool_decide_eq_true in Halgo.
    unfold ALLOWED_ALGORITHMS. destruct Halgo as [-> | ->]; split; set_solver. }
  split.
  - unfold validate_current_config.
    rewrite bool_decide_eq_true_2 by done. simpl.
    rewrite Halgo, Hlimit, Hwindow. simpl. rewrite Hq0. simpl.
    destruct (Z.leb_spec w 0); [lia|].
    by rewrite bool_decide_eq_false_2.
  - unfold keep_current_response. rewrite Hlimit. simpl.
    unfold PyFloat.Qtrunc.
    assert (Qle_bool 0 q = true) as -> by (by apply Qle_bool_iff, Qlt_le_weak).
    rewrite (Qfloor_unit q Hpos Hlt).
    eexists. split_and!; [done..|].
    unfold validate_current_config, as_incoming. simpl.
    rewrite bool_decide_eq_true_2 by done. simpl.
    by rewrite Halgo, Hwindow.
Qed.

End Truncation.

(** ** Exceptions of [parse_timestamp] *)

Section Timestamp.
Context {lib : PyLib}.

(** C9 fails on the code: [parse_timestamp] catches [ValueError] only, and
    only around the parsing of strings.  A string that is not an ISO date and
    that [float] reads as a number for which [datetime.fromtimestamp] raises
    [OverflowError] (the string "inf", or "1e30") makes it raise instead of
    falling back to the wall clock; a number for which
    [datetime.fromtimestamp] raises makes it raise whatever the exception. *)
Theorem parse_timestamp_overflow_escapes
  (s : string) (x y : pyfloat) (e : exn) (now : Z) :
  fromisoformat (replace_Z s) = Raise ValueError →
  float_of_str s = Ok x →
  fromtimestamp x = Raise OverflowError →
  fromtimestamp y = Raise e →
  parse_timestamp (Some (TsStr s)) now = Raise OverflowError
  ∧ parse_timestamp (Some (TsFloat y)) now = Raise e.
Proof.
  intros Hiso Hfloat Hstamp Hnumber. unfold parse_timestamp.
  rewrite Hiso, Hfloat. simpl. by rewrite Hstamp.
Qed.

End Timestamp.

(** ** Runs of the service with the default configuration *)

Section Scenarios.
#[local] Existing Instance default_env.
#[local] Existing Instance PyModel.lib.

(** The scenarios of the specification. *)

Example scenario_steady_state :
  let '(w, replies) := repeated 20 (report 100 None (fixed_config 120 1)) in
  length replies = 20%nat
  ∧ forallb (answers 120 1) replies = true
  ∧ last_change_at (state w) = None.
Proof. by vm_compute. Qed.

Example scenario_overload :
  answers 70 1
    (limit_config (report 50 (Some (Fin (2 # 10))) (fixed_config 100 1))
       0 0 initial_world).2 = true.
Proof. by vm_compute. Qed.

Example scenario_growth :
  answers 137 1
    (limit_config (report 130 None (fixed_config 100 1)) 0 0 initial_world).2 = true.
Proof. by vm_compute. Qed.

Example scenario_small_growth :
  answers 100 1
    (limit_config (report 105 None (fixed_config 100 1)) 0 0 initial_world).2 = true.
Proof. by vm_compute. Qed.

Example scenario_invalid_config :
  let request :=
    report 100 None
      {| algorithm := "sliding"; limit := Some (Fin 0); window := Some 1%Z;
         capacity := None; fillRate := None |} in
  ∃ body,
    (limit_config request 0 0 initial_world).2 = Ok (Decision "invalid_config" body)
    ∧ r_algorithm body = "fixed"%string
    ∧ r_limit body = Some 60%Z ∧ r_window body = Some 60%Z.
Proof. vm_compute. eexists. by split_and!. Qed.

Example scenario_coerced_config :
  let payload :=
    JDict {[ "currentConfig"%string :=
               JDict {[ "algorithm"%string := JStr " Token_Bucket ";
                        "capacity"%string := JInt 10;
                        "fillRate"%string := JFloat (Fin 5) ]} ]} in
  coerce_current_config payload None = Some (token_config 10 5).
Proof. by vm_compute. Qed.

(** C1 fails on the code.  A first request reports the config
    [{fixed, limit: 0.5, window: 1}], which validates and becomes
    [lastGoodConfig]; a second request reports the invalid config
    [{sliding, limit: 0, window: 1}].  The reply to the second one is a 200
    whose limit is [int(0.5) = 0]; read back as a config it fails
    [validate_current_config]. *)
Theorem invalid_config_reply_does_not_validate :
  let first := report 1 None (fixed_config (1 # 2) 1) in
  let second := report 1 None
                  {| algorithm := "sliding"; limit := Some (Fin 0);
                     window := Some 1%Z; capacity := None; fillRate := None |} in
  let '(w1, reply1) := limit_config first 0 0 initial_world in
  let '(w2, reply2) := limit_config second 1000000 1000000 w1 in
  validate_current_config (currentConfig first) = None
  ∧ is_ok reply1 = true
  ∧ ∃ body,
      reply2 = Ok (Decision "invalid_config" body)
      ∧ r_limit body = Some 0%Z
      ∧ validate_current_config (as_incoming body)
        = Some "limit/window must be positive"%string.
Proof. vm_compute. split_and!; [done..|]. eexists. by split_and!. Qed.






Lemma recommend_config_change_interval_witness :
  let request := report 50 (Some (Fin (2 # 10))) (fixed_config 100 1) in
  ∃ recommendation state',
    recommend_config request (Fin 50) [{| ts := 0; rps := Fin 50 |}] initial_state 7
      = Ok (recommendation, state')
    ∧ (state' = initial_state ∨ last_change_at state' = Some 7%Z).
Proof.
  intros request.
  destruct (recommend_config request (Fin 50) [{| ts := 0; rps := Fin 50 |}]
              initial_state 7) as [[recommendation state']|] eqn:Hrec;
    [|by vm_compute in Hrec].
  exists recommendation, state'. split; [done|].
  destruct (recommend_config_change_interval _ _ _ _ _ _ _ Hrec)
    as (_ & _ & _ & _ & _ & _ & _ & _ & _ & _ & [->|[Hat _]]); auto.
Defined.

Lemma fractional_limit_is_truncated_to_zero_witness :
  let config := fixed_config (1 # 2) 1 in
  (fixed_or_sliding (algorithm config) = true
   ∧ limit config = Some (Fin (1 # 2)) ∧ (0 < 1 # 2)%Q ∧ (1 # 2 < 1)%Q
   ∧ window config = Some 1%Z ∧ (0 < 1)%Z)
  ∧ validate_current_config config = None
  ∧ ∃ r, keep_current_response config None = Ok r
         ∧ r_limit r = Some 0%Z
         ∧ validate_current_config (as_incoming r)
           = Some "limit/window must be positive"%string.
Proof.
  split; [by vm_compute|].
  by apply (fractional_limit_is_truncated_to_zero
              (fixed_config (1 # 2) 1) (1 # 2) 1 None).
Defined.

Lemma parse_timestamp_overflow_escapes_witness :
  fromisoformat (replace_Z "inf") = Raise ValueError
  ∧ float_of_str "inf" = Ok PInf
  ∧ fromtimestamp PInf = Raise OverflowError
  ∧ fromtimestamp (Fin (inject_Z (10 ^ 16))) = Raise ValueError
  ∧ parse_timestamp (Some (TsStr "inf")) 0 = Raise OverflowError
  ∧ parse_timestamp (Some (TsFloat (Fin (inject_Z (10 ^ 16))))) 0 = Raise ValueError.
Proof.
  split_and!; [done..| |];
    by apply (parse_timestamp_overflow_escapes
                "inf" PInf (Fin (inject_Z (10 ^ 16))) ValueError 0).
Defined.

End Scenarios.

(** * Further properties *)

(** ** Order on floats *)

Lemma Qltb_true a b : PyFloat.Qltb a b = true ↔ (a < b)%Q.
Proof.
  unfold PyFloat.Qltb. rewrite negb_true_iff. split.
  - intros Hle. apply Qnot_le_lt. intros H. apply Qle_bool_iff in H. congruence.
  - intros Hlt. apply not_true_is_false. intros H. apply Qle_bool_iff in H.
    by apply Qle_not_lt in H.
Qed.

Lemma Qltb_false a b : PyFloat.Qltb a b = false ↔ (b <= a)%Q.
Proof.
  unfold PyFloat.Qltb. rewrite negb_false_iff. apply Qle_bool_iff.
Qed.

(** [x <= x] holds of every float but [nan]. *)
Lemma leb_refl_iff x : (x <=? x) = true ↔ x ≠ NaN.
Proof.
  destruct x as [q| | |]; simpl; try done.
  split; [done|]. intros _. apply Qle_bool_iff, Qle_refl.
Qed.

Lemma leb_not_nan x y : (x <=? y) = true → (x <=? x) = true ∧ (y <=? y) = true.
Proof.
  rewrite !leb_refl_iff. destruct x, y; simpl; try done.
Qed.

Lemma ltb_not_nan x y : (x <? y) = true → (x <=? x) = true ∧ (y <=? y) = true.
Proof. intros H. by apply leb_not_nan, ltb_leb. Qed.

Lemma ltb_false_leb x y :
  (y <? x) = false → (x <=? x) = true → (y <=? y) = true → (x <=? y) = true.
Proof.
  rewrite !leb_refl_iff. destruct x as [a| | |], y as [b| | |]; simpl; try done.
  intros H _ _. apply Qle_bool_iff. by apply Qltb_false.
Qed.

Lemma leb_trans x y z : (x <=? y) = true → (y <=? z) = true → (x <=? z) = true.
Proof.
  destruct x as [a| | |], y as [b| | |], z as [c| | |]; simpl; try done.
  rewrite !Qle_bool_iff. apply Qle_trans.
Qed.

Lemma ltb_leb_trans x y z : (x <? y) = true → (y <=? z) = true → (x <? z) = true.
Proof.
  destruct x as [a| | |], y as [b| | |], z as [c| | |]; simpl; try done.
  rewrite !Qltb_true, Qle_bool_iff. apply Qlt_le_trans.
Qed.

Lemma leb_ltb_false x y : (x <=? y) = true → (y <? x) = false.
Proof.
  destruct x as [a| | |], y as [b| | |]; simpl; try done.
  rewrite Qle_bool_iff. by intros H; apply Qltb_false.
Qed.

(** ** [clamp] *)

(** [clamp] never goes below a minimum that is a number, nor above a maximum
    that is not below the minimum; in particular it is never [nan], whatever
    the value. *)
Theorem clamp_bounds (value minimum : pyfloat) (maximum : option pyfloat) :
  minimum ≠ NaN →
  (minimum <=? clamp value minimum maximum) = true
  ∧ ∀ hi, maximum = Some hi → (minimum <=? hi) = true →
          (clamp value minimum maximum <=? hi) = true.
Proof.
  intros Hmin. apply leb_refl_iff in Hmin.
  assert (∀ x, (minimum <=? PyFloat.max minimum x) = true) as Hlow.
  { intros x. unfold PyFloat.max, PyFloat.gtb.
    destruct (minimum <? x) eqn:Hlt; [by apply ltb_leb|done]. }
  split; [destruct maximum; apply Hlow|].
  intros hi -> Hhi. unfold clamp, PyFloat.max, PyFloat.min, PyFloat.gtb.
  destruct (leb_not_nan _ _ Hhi) as [_ Hhi_refl].
  destruct (hi <? value) eqn:Hover.
  - by destruct (minimum <? hi).
  - destruct (minimum <? value) eqn:Hlt; [|done].
    apply ltb_false_leb; [done| |done].
    by apply ltb_not_nan in Hlt as [_ ?].
Qed.

Lemma clamp_bounds_witness :
  Fin 1 ≠ NaN
  ∧ (Fin 1 <=? clamp NaN (Fin 1) (Some (Fin 10000))) = true
  ∧ (clamp PInf (Fin 1) (Some (Fin 10000)) <=? Fin 10000) = true.
Proof.
  split; [done|].
  destruct (clamp_bounds NaN (Fin 1) (Some (Fin 10000)) ltac:(done)) as [Hlow _].
  destruct (clamp_bounds PInf (Fin 1) (Some (Fin 10000)) ltac:(done)) as [_ Hhigh].
  split; [done|]. by apply Hhigh.
Defined.

(** ** Validated configs *)

Lemma allowed_algorithm_cases (algo : string) :
  algo ∈ ALLOWED_ALGORITHMS ↔
  algo = "fixed"%string ∨ algo = "sliding"%string ∨ algo = "token"%string.
Proof.
  unfold ALLOWED_ALGORITHMS. rewrite !elem_of_cons, elem_of_nil. tauto.
Qed.

Lemma validate_current_config_None config :
  validate_current_config config = None →
  (fixed_or_sliding (algorithm config) = true
   ∧ ∃ l w, limit config = Some l ∧ window config = Some w
            ∧ (l <=? Fin 0) = false ∧ (0 < w)%Z)
  ∨ (algorithm config = "token"%string
     ∧ ∃ c f, capacity config = Some c ∧ fillRate config = Some f
              ∧ (0 < c)%Z ∧ (f <=? Fin 0) = false).
Proof.
  unfold validate_current_config.
  destruct (bool_decide (algorithm config ∈ ALLOWED_ALGORITHMS)) eqn:Hallowed;
    [|done]. simpl.
  destruct (fixed_or_sliding (algorithm config)) eqn:Halgo.
  - destruct (limit config) as [l|], (window config) as [w|]; try done.
    destruct (l <=? Fin 0) eqn:Hl; [done|]. simpl.
    destruct (Z.leb_spec w 0); [done|]. intros _. left. eauto 10.
  - destruct (bool_decide (algorithm config = "token"%string)) eqn:Htoken;
      [apply bool_decide_eq_true in Htoken|apply bool_decide_eq_false in Htoken;
                                           intros _].
    + destruct (capacity config) as [c|], (fillRate config) as [f|]; try done.
      destruct (Z.leb_spec c 0); [done|]. simpl.
      destruct (f <=? Fin 0) eqn:Hf; [done|]. intros _. right. eauto 10.
    + apply bool_decide_eq_true, allowed_algorithm_cases in Hallowed.
      unfold fixed_or_sliding in Halgo. apply bool_decide_eq_false in Halgo.
      tauto.
Qed.


Section ValidatedConfig.
Context {env : Env} {lib : PyLib}.


(** [keep_current_response] echoes a config whose limit is a whole number
    (or absent): the response read back as a config is the config itself,
    with the forecast given and [validFor = FORECAST_SECONDS]. *)
Theorem keep_current_response_round_trip
  (config : LimitConfigIn) (l : option Z) (p : option pyfloat) :
  limit config = PyFloat.of_Z <$> l →
  ∃ r, keep_current_response config p = Ok r
       ∧ as_incoming r = config
       ∧ r_predictedRps r = p
       ∧ r_validFor r = Some FORECAST_SECONDS.
Proof.
  intros Hlimit. unfold keep_current_response. rewrite Hlimit.
  destruct config as [algo lim w c f]. simpl in *. subst lim.
  destruct l as [z|]; simpl; [|eauto].
  assert (PyFloat.Qtrunc (inject_Z z) = z) as ->; [|eauto].
  unfold PyFloat.Qtrunc. destruct (Qle_bool 0 (inject_Z z));
    [apply Qfloor_Z|apply Qceiling_Z].
Qed.

End ValidatedConfig.


Lemma keep_current_response_round_trip_witness :
  limit (fixed_config 120 60) = PyFloat.of_Z <$> Some 120%Z
  ∧ ∃ r, keep_current_response (env := default_env) (fixed_config 120 60)
           (Some (Fin 2)) = Ok r
         ∧ as_incoming r = fixed_config 120 60
         ∧ r_predictedRps r = Some (Fin 2)
         ∧ r_validFor r = Some 60%Z.
Proof.
  split; [done|].
  by apply (keep_current_response_round_trip (env := default_env)
              (fixed_config 120 60) (Some 120%Z) (Some (Fin 2))).
Defined.

(** ** Integer parts *)

Lemma ceil_Ok x z : PyFloat.ceil x = Ok z → ∃ q, x = Fin q ∧ z = Qceiling q.
Proof. destruct x; simpl; [|done..]. intros [= <-]. eauto. Qed.

Lemma floor_Ok x z : PyFloat.floor x = Ok z → ∃ q, x = Fin q ∧ z = Qfloor q.
Proof. destruct x; simpl; [|done..]. intros [= <-]. eauto. Qed.

Lemma mul_Fin x y q : x * y = Fin q → ∃ a b, x = Fin a ∧ y = Fin b ∧ q = (a * b)%Q.
Proof.
  destruct x as [a| | |], y as [b| | |]; simpl; try done.
  - intros [= <-]. eauto.
  - unfold PyFloat.inf_times. by repeat case_match.
  - unfold PyFloat.inf_times. by repeat case_match.
  - unfold PyFloat.inf_times. by repeat case_match.
  - unfold PyFloat.inf_times. by repeat case_match.
Qed.

Lemma Qceiling_pos q : (0 < q)%Q → (1 ≤ Qceiling q)%Z.
Proof.
  intros Hpos. pose proof (Qle_ceiling q) as Hle.
  assert (inject_Z 0 < inject_Z (Qceiling q))%Q as H
    by (eapply Qlt_le_trans; eassumption).
  rewrite <- Zlt_Qlt in H. lia.
Qed.

Lemma Qfloor_ge_one q : (1 <= q)%Q → (1 ≤ Qfloor q)%Z.
Proof.
  intros Hle. rewrite <- (Qfloor_Z 1). by apply Qfloor_resp_le.
Qed.

Lemma of_Z_pos z : (1 ≤ z)%Z → (PyFloat.of_Z z <=? Fin 0) = false.
Proof.
  intros Hz. simpl. apply not_true_is_false. intros H.
  apply Qle_bool_iff in H. unfold Qle in H. simpl in H. lia.
Qed.

Lemma validate_fixed_or_sliding config l w :
  fixed_or_sliding (algorithm config) = true →
  limit config = Some (PyFloat.of_Z l) → window config = Some w →
  (1 ≤ l)%Z → (1 ≤ w)%Z →
  validate_current_config config = None.
Proof.
  intros Halgo Hl Hw Hlpos Hwpos. unfold validate_current_config.
  assert (algorithm config ∈ ALLOWED_ALGORITHMS ∧ algorithm config ≠ "token"%string)
    as [Hallowed Htoken].
  { unfold fixed_or_sliding in Halgo. apply bool_decide_eq_true in Halgo.
    rewrite allowed_algorithm_cases. destruct Halgo as [-> | ->]; split; auto. }
  rewrite bool_decide_eq_true_2 by done. simpl.
  rewrite Halgo, Hl, Hw, of_Z_pos by done. simpl.
  destruct (Z.leb_spec w 0); [lia|].
  by rewrite bool_decide_eq_false_2.
Qed.

(** ** The default fallback config *)

Section DefaultFallback.
Context {env : Env} {lib : PyLib}.




End DefaultFallback.


(** ** Responses of [build_response] *)

Lemma clamp_ge_minimum value minimum maximum :
  minimum ≠ NaN → (minimum <=? clamp value minimum maximum) = true.
Proof.
  intros Hmin. apply leb_refl_iff in Hmin.
  assert (∀ x, (minimum <=? PyFloat.max minimum x) = true) as Hlow.
  { intros x. unfold PyFloat.max, PyFloat.gtb.
    destruct (minimum <? x) eqn:Hlt; [by apply ltb_leb|done]. }
  destruct maximum; apply Hlow.
Qed.

Lemma round_half_even_floor q :
  (Qfloor q ≤ PyFloat.round_half_even q ≤ Qfloor q + 1)%Z.
Proof. unfold PyFloat.round_half_even. repeat case_match; lia. Qed.

Lemma round3_pos q :
  (1 # 1000 <= q)%Q →
  ∃ q', PyFloat.round3 (Fin q) = Fin q' ∧ (Fin q' <=? Fin 0) = false.
Proof.
  intros Hq. simpl. eexists. split; [done|]. simpl.
  apply not_true_is_false. intros H. apply Qle_bool_iff in H.
  set (n := PyFloat.round_half_even (q * 1000)) in *.
  assert (1 ≤ n)%Z as Hn.
  { pose proof (round_half_even_floor (q * 1000)) as [Hfloor _].
    assert (1 ≤ Qfloor (q * 1000))%Z; [|subst n; lia].
    apply Qfloor_ge_one.
    apply (Qmult_le_compat_r _ _ 1000) in Hq; [|done].
    by assert ((1 # 1000) * 1000 == 1)%Q as <- by reflexivity. }
  unfold Qle, Qdiv in H. simpl in H. lia.
Qed.

Lemma validate_token config c f :
  algorithm config = "token"%string →
  capacity config = Some c → fillRate config = Some f →
  (1 ≤ c)%Z → (f <=? Fin 0) = false →
  validate_current_config config = None.
Proof.
  intros Halgo Hc Hf Hcpos Hfpos. unfold validate_current_config.
  rewrite Halgo, Hc, Hf, Hfpos. simpl.
  destruct (Z.leb_spec c 0); [lia|done].
Qed.

Section BuildResponse.
Context {env : Env} {lib : PyLib}.

(** The window [build_response] uses for [fixed] and [sliding]. *)
Lemma response_window config (bound : Z) :
  (bound ≤ DEFAULT_WINDOW_SECONDS)%Z → (bound ≤ 1)%Z →
  (∀ w, window config = Some w → (0 ≤ w)%Z) →
  (bound ≤ match window config with
           | Some w => if decide (w = 0%Z) then DEFAULT_WINDOW_SECONDS else w
           | None => DEFAULT_WINDOW_SECONDS
           end)%Z.
Proof.
  intros Hdefault Hbound Hwindow.
  destruct (window config) as [w|]; [|done].
  specialize (Hwindow w eq_refl). case_decide; lia.
Qed.

Lemma build_response_valid
  (algo : string) (target : pyfloat) (config : LimitConfigIn)
  (p : option pyfloat) (r : LimitConfigResponse) :
  algo ∈ ALLOWED_ALGORITHMS →
  (Fin (1 # 1000) <=? MIN_RPS) = true →
  (∀ hi, max_rps = Some hi → (Fin 1 <=? hi) = true) →
  (0 < DEFAULT_WINDOW_SECONDS)%Z →
  (∀ w, window config = Some w → (0 ≤ w)%Z) →
  build_response algo target config p = Ok r →
  validate_current_config (as_incoming r) = None.
Proof.
  intros Hallowed Hmin Hmax Hdefault Hwindow H.
  unfold build_response in H.
  destruct (fixed_or_sliding algo) eqn:Halgo.
  - pose proof (response_window config 1 ltac:(lia) ltac:(lia) Hwindow) as Hw.
    set (w := match window config with
              | Some w => if decide (w = 0%Z) then DEFAULT_WINDOW_SECONDS else w
              | None => DEFAULT_WINDOW_SECONDS
              end) in *.
    apply bind_Ok in H as (limit0 & _ & H).
    apply bind_Ok in H as (min_limit & Hmin_limit & H).
    apply bind_Ok in H as (limit2 & Hlimit2 & H).
    injection H as <-. simpl.
    assert (1 ≤ min_limit)%Z as Hmin1.
    { apply ceil_Ok in Hmin_limit as (q & Hq & ->).
      apply mul_Fin in Hq as (lo & b & Hlo & [= <-] & ->).
      rewrite Hlo in Hmin. simpl in Hmin. apply Qle_bool_iff in Hmin.
      apply Qceiling_pos. apply Qmult_lt_0_compat.
      - eapply Qlt_le_trans; [|exact Hmin]. done.
      - unfold Qlt. simpl. lia. }
    assert (1 ≤ limit2)%Z as Hlimit.
    { destruct max_rps as [hi|]; [|injection Hlimit2 as <-; lia].
      apply bind_Ok in Hlimit2 as (max_limit & Hmax_limit & Hlimit2).
      injection Hlimit2 as <-.
      apply floor_Ok in Hmax_limit as (q & Hq & ->).
      apply mul_Fin in Hq as (h & b & -> & [= <-] & ->).
      specialize (Hmax _ eq_refl). simpl in Hmax. apply Qle_bool_iff in Hmax.
      assert (1 ≤ Qfloor (h * inject_Z w))%Z; [|lia].
      apply Qfloor_ge_one.
      assert (1 * 1 <= h * inject_Z w)%Q as Hprod; [|done].
      apply Qmult_le_compat_nonneg; split; try done.
      unfold Qle. simpl. lia. }
    by eapply validate_fixed_or_sliding.
  - assert (algo = "token"%string) as ->.
    { apply allowed_algorithm_cases in Hallowed.
      unfold fixed_or_sliding in Halgo. apply bool_decide_eq_false in Halgo.
      tauto. }
    assert (MIN_RPS ≠ NaN) as Hnan by (by destruct MIN_RPS).
    pose proof (clamp_ge_minimum target MIN_RPS max_rps Hnan) as Hfill.
    pose proof (leb_trans _ _ _ Hmin Hfill) as Hfill_pos.
    set (fill_rate := clamp target MIN_RPS max_rps) in *.
    apply bind_Ok in H as (capacity0 & Hcapacity0 & H).
    apply bind_Ok in H as (min_capacity & _ & H).
    apply bind_Ok in H as (capacity2 & Hcapacity2 & H).
    injection H as <-. simpl.
    apply ceil_Ok in Hcapacity0 as (q0 & Hq0 & ->).
    apply mul_Fin in Hq0 as (q & tcs & Hq & _ & ->).
    rewrite Hq in *. simpl in Hfill_pos. apply Qle_bool_iff in Hfill_pos.
    assert (0 < q)%Q as Hq_pos by (eapply Qlt_le_trans; [|exact Hfill_pos]; done).
    assert (1 ≤ capacity2)%Z as Hcapacity.
    { set (capacity1 := Z.max _ _) in Hcapacity2.
      destruct (PyFloat.of_Z capacity1 <? Fin q) eqn:Hlt.
      - simpl in Hcapacity2. injection Hcapacity2 as <-. by apply Qceiling_pos.
      - injection Hcapacity2 as <-. simpl in Hlt. apply Qltb_false in Hlt.
        assert (inject_Z 0 < inject_Z capacity1)%Q as H
          by (eapply Qlt_le_trans; eassumption).
        rewrite <- Zlt_Qlt in H. lia. }
    destruct (round3_pos q Hfill_pos) as (q' & Hround & Hpos).
    rewrite Hround.
    eapply validate_token; simpl; [done|done|done| |done].
    destruct (Z.gtb_spec MAX_CAPACITY 0); lia.
Qed.

Lemma build_response_meta algo target config p r :
  build_response algo target config p = Ok r →
  r_algorithm r = algo ∧ r_predictedRps r = p
  ∧ r_validFor r = Some FORECAST_SECONDS.
Proof.
  unfold build_response. intros H. destruct (fixed_or_sliding algo).
  - apply bind_Ok in H as (? & _ & H). apply bind_Ok in H as (? & _ & H).
    apply bind_Ok in H as (? & _ & H). by injection H as <-.
  - apply bind_Ok in H as (? & _ & H). apply bind_Ok in H as (? & _ & H).
    apply bind_Ok in H as (? & _ & H). by injection H as <-.
Qed.

(** With [MIN_RPS >= 0.001], [MAX_RPS >= 1] (or not positive, which
    disables it) and a positive [DEFAULT_WINDOW_SECONDS], every response
    [build_response] returns for an allowed algorithm passes
    [validate_current_config] when read back as a config, whatever the
    target, and carries the algorithm, the forecast and
    [validFor = FORECAST_SECONDS]. *)
Theorem build_response_validates
  (algo : string) (target : pyfloat) (config : LimitConfigIn)
  (p : option pyfloat) (r : LimitConfigResponse) :
  algo ∈ ALLOWED_ALGORITHMS →
  (Fin (1 # 1000) <=? MIN_RPS) = true →
  (∀ hi, max_rps = Some hi → (Fin 1 <=? hi) = true) →
  (0 < DEFAULT_WINDOW_SECONDS)%Z →
  (∀ w, window config = Some w → (0 ≤ w)%Z) →
  build_response algo target config p = Ok r →
  validate_current_config (as_incoming r) = None
  ∧ r_algorithm r = algo
  ∧ r_predictedRps r = p
  ∧ r_validFor r = Some FORECAST_SECONDS.
Proof.
  intros Hallowed Hmin Hmax Hdefault Hwindow H.
  split; [by eapply build_response_valid|by eapply build_response_meta].
Qed.


End BuildResponse.

(** ** Algorithm switches *)

Lemma clamp_idempotent value minimum maximum :
  minimum ≠ NaN →
  (∀ hi, maximum = Some hi → (minimum <=? hi) = true) →
  clamp (clamp value minimum maximum) minimum maximum = clamp value minimum maximum.
Proof.
  intros Hnan Hhi. apply leb_refl_iff in Hnan.
  assert (∀ x, PyFloat.max minimum (PyFloat.max minimum x) = PyFloat.max minimum x)
    as Hmax.
  { intros x. unfold PyFloat.max, PyFloat.gtb.
    destruct (minimum <? x) eqn:Hlt; [by rewrite Hlt|].
    by rewrite (leb_ltb_false _ _ Hnan). }
  destruct maximum as [hi|]; simpl; [|apply Hmax].
  specialize (Hhi hi eq_refl).
  set (y := PyFloat.max minimum (PyFloat.min value hi)).
  assert ((y <=? hi) = true) as Hy.
  { subst y. unfold PyFloat.max, PyFloat.min, PyFloat.gtb.
    destruct (leb_not_nan _ _ Hhi) as [_ Hhi_refl].
    destruct (hi <? value) eqn:Hover.
    - by destruct (minimum <? hi).
    - destruct (minimum <? value) eqn:Hlt; [|done].
      apply ltb_false_leb; [done| |done].
      by apply ltb_not_nan in Hlt as [_ ?]. }
  assert (PyFloat.min y hi = y) as ->.
  { unfold PyFloat.min. by rewrite (leb_ltb_false _ _ Hy). }
  apply Hmax.
Qed.

Lemma total_seconds_geb us m :
  (total_seconds us >=? PyFloat.of_Z m) = true ↔ (seconds m ≤ us)%Z.
Proof.
  unfold PyFloat.geb, total_seconds, PyFloat.of_Z, seconds. simpl.
  rewrite Qle_bool_iff. unfold Qle. simpl. lia.
Qed.

Section Switching.
Context {env : Env} {lib : PyLib}.

Lemma desired_algorithm_cases current_config history state now desired :
  desired_algorithm current_config history state now = Ok desired →
  desired = algorithm current_config
  ∨ (desired = "token"%string ∨ desired = "sliding"%string
                                ∧ algorithm current_config = "token"%string)
    ∧ ALLOW_ALGO_SWITCH = true
    ∧ (last_algo_switch_at state = None
       ∨ ∃ prev, last_algo_switch_at state = Some prev
                 ∧ (seconds MIN_ALGO_SWITCH_INTERVAL_SECONDS ≤ now - prev)%Z).
Proof.
  unfold desired_algorithm. intros H.
  destruct ALLOW_ALGO_SWITCH;
    [rewrite andb_true_l in H|rewrite andb_false_l in H; injection H as <-; by left].
  assert (last_algo_switch_at state = None
          ∨ (∃ prev, last_algo_switch_at state = Some prev
                     ∧ (seconds MIN_ALGO_SWITCH_INTERVAL_SECONDS ≤ now - prev)%Z)
          ∨ desired = algorithm current_config) as Hwhen.
  { destruct (last_algo_switch_at state) as [prev|]; [|by left].
    destruct (total_seconds (now - prev) >=? _) eqn:Hge.
    - right. left. exists prev. split; [done|]. by apply total_seconds_geb.
    - right. right. by injection H as <-. }
  destruct Hwhen as [Hnone|[Hprev|Hsame]]; [| |by left].
  - rewrite Hnone in H.
    apply bind_Ok in H as (bursty & _ & H).
    destruct bursty; [injection H as <-; right; auto|].
    case_bool_decide; injection H as <-; [right; auto|by left].
  - destruct Hprev as (prev & Hprev & Hle). rewrite Hprev in H.
    assert ((total_seconds (now - prev) >=? PyFloat.of_Z MIN_ALGO_SWITCH_INTERVAL_SECONDS)
            = true) as Hge by (by apply total_seconds_geb).
    rewrite Hge in H.
    apply bind_Ok in H as (bursty & _ & H).
    destruct bursty; [injection H as <-; right; eauto 10|].
    case_bool_decide; injection H as <-; [right; eauto 10|by left].
Qed.

Lemma configs_equal_algorithm config r :
  configs_equal config r = Ok true → algorithm config = r_algorithm r.
Proof.
  unfold configs_equal. case_bool_decide; [done|]. simpl. done.
Qed.

(** A call of [recommend_config] that returns either keeps the algorithm of
    the current config and leaves [lastAlgoSwitchAt] as it was, or switches
    it (to [token], or from [token] to [sliding]) and sets both
    [lastAlgoSwitchAt] and [lastChangeAt] to [now]; it switches only when
    [ALLOW_ALGO_SWITCH] is set and the last switch, if any, is at least
    [MIN_ALGO_SWITCH_INTERVAL_SECONDS] old. *)
Theorem algorithm_switch_interval
  request predicted history state now recommendation state' :
  recommend_config request predicted history state now = Ok (recommendation, state') →
  let current := algorithm (currentConfig request) in
  (r_algorithm recommendation = current
   ∧ last_algo_switch_at state' = last_algo_switch_at state)
  ∨ (r_algorithm recommendation ≠ current
     ∧ (r_algorithm recommendation = "token"%string
        ∨ r_algorithm recommendation = "sliding"%string ∧ current = "token"%string)
     ∧ ALLOW_ALGO_SWITCH = true
     ∧ last_algo_switch_at state' = Some now
     ∧ last_change_at state' = Some now
     ∧ (last_algo_switch_at state = None
        ∨ ∃ prev, last_algo_switch_at state = Some prev
                  ∧ (seconds MIN_ALGO_SWITCH_INTERVAL_SECONDS ≤ now - prev)%Z)).
Proof.
  intros H current. apply recommend_config_inv in H
    as [current_limit desired proposal ratio equal cc p target
        Hlimit Hdesired Hproposal Hratio Hequal Hpath].
  apply build_response_meta in Hproposal as (Halgo & _ & _).
  unfold path_of in Hpath.
  destruct equal.
  { destruct Hpath as [-> ->]. left.
    by apply configs_equal_algorithm in Hequal. }
  destruct (bool_decide _ && _).
  { destruct Hpath as [Hkept ->]. left.
    by apply build_response_meta in Hkept as (? & _ & _). }
  destruct (recent_change_block state now).
  { destruct Hpath as [Hkept ->]. left.
    by apply build_response_meta in Hkept as (? & _ & _). }
  destruct Hpath as [-> ->]. rewrite Halgo. unfold accepted_state. simpl.
  case_bool_decide as Hsame; [by left|]. right.
  apply desired_algorithm_cases in Hdesired as [?|(Hkind & Hallow & Hwhen)];
    [done|].
  by split_and!.
Qed.

End Switching.

(** ** Replies of [limit_config] *)

Lemma round3_nonneg x : (Fin 0 <=? x) = true → (Fin 0 <=? PyFloat.round3 x) = true.
Proof.
  destruct x as [q| | |]; simpl; try done.
  rewrite !Qle_bool_iff. intros Hq.
  pose proof (round_half_even_floor (q * 1000)) as [Hfloor _].
  assert (0 ≤ Qfloor (q * 1000))%Z as H0.
  { rewrite <- (Qfloor_Z 0). apply Qfloor_resp_le. simpl.
    apply Qmult_le_0_compat; done. }
  unfold Qle, Qdiv. simpl. lia.
Qed.

Section Replies.
Context {env : Env} {lib : PyLib}.

Lemma max_rps_pos hi : max_rps = Some hi → (Fin 0 <=? hi) = true.
Proof.
  unfold max_rps. destruct (MAX_RPS >? Fin 0) eqn:Hpos; [|done].
  intros [= <-]. by apply ltb_leb.
Qed.

Lemma recommend_config_algorithm_allowed
  request predicted history state now recommendation state' :
  validate_current_config (currentConfig request) = None →
  recommend_config request predicted history state now = Ok (recommendation, state') →
  ∃ algo target,
    algo ∈ ALLOWED_ALGORITHMS
    ∧ build_response algo target (currentConfig request)
        (Some (PyFloat.round3 (clamp predicted (Fin 0) max_rps))) = Ok recommendation
    ∧ last_predicted_rps state' = last_predicted_rps state.
Proof.
  intros Hvalid H.
  assert (algorithm (currentConfig request) ∈ ALLOWED_ALGORITHMS) as Hcurrent.
  { apply allowed_algorithm_cases.
    destruct (validate_current_config_None _ Hvalid) as [[Halgo _]|[Halgo _]];
      [|tauto].
    unfold fixed_or_sliding in Halgo. apply bool_decide_eq_true in Halgo. tauto. }
  apply recommend_config_inv in H
    as [current_limit desired proposal ratio equal cc p target
        Hlimit Hdesired Hproposal Hratio Hequal Hpath].
  assert (desired ∈ ALLOWED_ALGORITHMS) as Hallowed.
  { apply desired_algorithm_cases in Hdesired as [->|([->|[-> _]] & _)];
      [done|apply allowed_algorithm_cases; tauto..]. }
  unfold path_of in Hpath.
  destruct equal; [destruct Hpath as [-> ->]; eauto|].
  destruct (bool_decide _ && _); [destruct Hpath as [? ->]; eauto|].
  destruct (recent_change_block state now); [destruct Hpath as [? ->]; eauto|].
  destruct Hpath as [-> ->]. eauto.
Qed.

(** With [MIN_RPS >= 0.001], [MAX_RPS >= 1] (or not positive) and a positive
    [DEFAULT_WINDOW_SECONDS], the body of every reply of [limit_config]
    counted as [ok], for a request whose window is positive when present,
    passes [validate_current_config] when read back as a config; it is also
    what [lastGoodRecommendation] holds afterwards. *)
Theorem limit_config_ok_reply_validates
  request received_at clock (w w' : World) body :
  (Fin (1 # 1000) <=? MIN_RPS) = true →
  (∀ hi, max_rps = Some hi → (Fin 1 <=? hi) = true) →
  (0 < DEFAULT_WINDOW_SECONDS)%Z →
  (∀ w0, window (currentConfig request) = Some w0 → (0 < w0)%Z) →
  limit_config request received_at clock w = (w', Ok (Decision "ok" body)) →
  validate_current_config (as_incoming body) = None
  ∧ last_good_recommendation (state w') = Some body.
Proof.
  intros Hmin Hmax Hdefault Hwindow H.
  rewrite limit_config_unfold in H.
  destruct (parse_timestamp _ _); [|done]. simpl in H.
  destruct (Forecaster.forecast _ _); [|done]. simpl in H.
  destruct (validate_current_config (currentConfig request)) eqn:Hvalid.
  { injection H as _ H. apply bind_Ok in H as (? & _ & H).
    apply bind_Ok in H as (? & _ & H). discriminate. }
  destruct (recommend_config _ _ _ _ _) as [[r state2]|] eqn:Hrec; [|done].
  injection H as <- <-. split; [|done].
  destruct (recommend_config_algorithm_allowed _ _ _ _ _ _ _ Hvalid Hrec)
    as (algo & target & Hallowed & Hbuilt & _).
  eapply build_response_valid; try done.
  intros w0 Hw0. specialize (Hwindow w0 Hw0). lia.
Qed.

(** Every 200 reply of [limit_config], on the happy path and on the
    invalid-config branch, carries [validFor = FORECAST_SECONDS] and a
    [predictedRps] that is not negative and is the value the request left in
    [lastPredictedRps]. *)
Theorem limit_config_reply_forecast
  request received_at clock (w w' : World) label body :
  limit_config request received_at clock w = (w', Ok (Decision label body)) →
  r_validFor body = Some FORECAST_SECONDS
  ∧ ∃ p, r_predictedRps body = Some p
         ∧ last_predicted_rps (state w') = Some p
         ∧ (Fin 0 <=? p) = true.
Proof.
  intros H. rewrite limit_config_unfold in H.
  destruct (parse_timestamp _ _); [|done]. simpl in H.
  destruct (Forecaster.forecast _ _) as [forecast|]; [|done]. simpl in H.
  set (x := default (observedRps request) forecast) in *.
  assert ((Fin 0 <=? PyFloat.round3 (clamp x (Fin 0) max_rps)) = true) as Hnonneg
    by (by apply round3_nonneg, clamp_ge_minimum).
  destruct (validate_current_config (currentConfig request)) eqn:Hvalid.
  - injection H as <- H.
    apply bind_Ok in H as (fallback & _ & H).
    apply bind_Ok in H as (r & Hkeep & H). injection H as _ <-.
    unfold keep_current_response in Hkeep.
    apply bind_Ok in Hkeep as (? & _ & Hkeep). injection Hkeep as <-.
    simpl. eauto.
  - destruct (recommend_config _ _ _ _ _) as [[r state2]|] eqn:Hrec; [|done].
    injection H as <- _ <-.
    destruct (recommend_config_algorithm_allowed _ _ _ _ _ _ _ Hvalid Hrec)
      as (algo & target & _ & Hbuilt & Hkept).
    apply build_response_meta in Hbuilt as (_ & Hp & Hfor).
    rewrite clamp_idempotent in Hp by (done || apply max_rps_pos).
    split; [done|]. simpl. rewrite Hkept. simpl. eauto.
Qed.

End Replies.

(** ** Burstiness *)

Lemma div_nonzero x y :
  (y <=? Fin 0) = false → ∃ z, PyFloat.div x y = Ok z.
Proof.
  intros Hy. unfold PyFloat.div. destruct y as [b| | |]; eauto.
  destruct (PyFloat.Qsign b) eqn:Hsign; eauto.
  simpl in Hy. unfold PyFloat.Qsign in Hsign. apply Z.compare_eq in Hsign.
  assert (Qle_bool b 0 = true); [|congruence].
  apply Qle_bool_iff. unfold Qle. simpl. lia.
Qed.

Section Burstiness.
Context {env : Env} {lib : PyLib}.

(** With [BURSTINESS_POINTS >= 0], [is_bursty] never raises: the sample is
    not empty and the mean it divides by is positive.  It answers false on
    fewer than [max(2, BURSTINESS_POINTS)] points. *)
Theorem is_bursty_returns (points : list TimePoint) :
  (0 ≤ BURSTINESS_POINTS)%Z →
  ∃ bursty, is_bursty points = Ok bursty
            ∧ ((Z.of_nat (length points) < Z.max 2 BURSTINESS_POINTS)%Z →
               bursty = false).
Proof.
  intros Hpoints. unfold is_bursty.
  destruct (Z.ltb_spec (Z.of_nat (length points)) (Z.max 2 BURSTINESS_POINTS))
    as [Hfew|Hmany]; [eauto|].
  set (sample := rps <$> slice_from (- BURSTINESS_POINTS) points).
  assert (1 ≤ Z.of_nat (length sample))%Z as Hsample.
  { subst sample. rewrite length_fmap. unfold slice_from. rewrite length_drop.
    destruct (Z.ltb_spec (- BURSTINESS_POINTS) 0); lia. }
  assert (∃ mean, PyFloat.div (foldl PyFloat.add (PyFloat.of_Z 0) sample)
                    (PyFloat.of_Z (Z.of_nat (length sample))) = Ok mean)
    as [mean ->].
  { apply div_nonzero. by apply of_Z_pos. }
  simpl. destruct (mean <=? Fin 0) eqn:Hmean; [exists false; split; [done|lia]|].
  assert (∃ peak, max_list sample = Ok peak) as [peak ->].
  { destruct sample; [simpl in Hsample; lia|simpl; eauto]. }
  simpl. destruct (div_nonzero peak mean Hmean) as [ratio ->]. simpl.
  eexists. split; [done|lia].
Qed.

End Burstiness.

(** ** The forecaster *)

Section ForecasterFacts.
Context {env : Env} {lib : PyLib}.

Lemma fallback_forecast_total (points : list TimePoint) (horizon : Z) :
  points ≠ [] →
  ∃ v, fallback_forecast points horizon = Ok v
       ∧ (Forall (λ p, (Fin 0 <=? rps p) = true) points → (Fin 0 <=? v) = true).
Proof.
  intros Hne. rewrite fallback_forecast_nonempty by done. cbv zeta.
  set (n := Z.of_nat (length points)).
  assert (1 ≤ n)%Z as Hn by (subst n; destruct points; [done|simpl; lia]).
  set (m := Z.max 1 (Z.min n FALLBACK_WINDOW_POINTS)).
  rewrite (slice_from_last m points) by (subst m n; lia).
  pose proof (last_points_length m points ltac:(subst m n; lia)) as Hlen.
  pose proof (last_points_subseteq m points) as Hsub.
  destruct (last_points m points) as [|start rest] eqn:Hwindow;
    [simpl in Hlen; lia|].
  destruct (last (start :: rest)) as [end_|] eqn:Hlast;
    [|by apply last_None in Hlast].
  assert (Forall (λ p, (Fin 0 <=? rps p) = true) points → (Fin 0 <=? rps end_) = true)
    as Hend.
  { rewrite Forall_forall. intros Hall. apply Hall, Hsub.
    by eapply last_Some_elem_of. }
  case_decide; [eauto|].
  rewrite total_seconds_nonpos. case_bool_decide as Hspan; [eauto|].
  destruct (div_total_seconds (rps end_ - rps start) (ts end_ - ts start))
    as [slope ->]; [lia|].
  simpl. eexists. split; [done|]. intros _. apply max_zero_nonneg.
Qed.

(** [Forecaster.forecast] never raises, whatever the Prophet model does: it
    returns [None] exactly on an empty list of points, and otherwise a
    forecast that is not negative when no point has a negative RPS. *)
Theorem forecast_returns (self : Forecaster.t) (points : list TimePoint) :
  ∃ forecast,
    Forecaster.forecast self points = Ok forecast
    ∧ (forecast = None ↔ points = [])
    ∧ (Forall (λ p, (Fin 0 <=? rps p) = true) points →
       ∀ v, forecast = Some v → (Fin 0 <=? v) = true).
Proof.
  destruct (decide (points = [])) as [->|Hne].
  { exists None. split_and!; [done|done|]. by intros _ v. }
  destruct (fallback_forecast_total points (Forecaster._horizon_seconds self) Hne)
    as (v & Hv & Hnonneg).
  assert (∀ x, ((Fin 0 <=? x) = true ∨ x = v) →
            (Some x = None ↔ points = [])
            ∧ (Forall (λ p, (Fin 0 <=? rps p) = true) points →
               ∀ v, Some x = Some v → (Fin 0 <=? v) = true)) as Hsome.
  { intros x Hx. split; [done|]. intros Hall ? [= <-].
    destruct Hx as [Hx| ->]; auto. }
  unfold Forecaster.forecast. destruct points as [|p rest]; [done|].
  rewrite Hv. simpl.
  destruct prophet_yhat as [model|]; [|exists (Some v); auto].
  destruct (_ >=? _)%Z; [|exists (Some v); auto].
  destruct (model _ _) as [predicted|]; [|exists (Some v); auto].
  eexists. split; [done|]. apply Hsome. left. apply max_zero_nonneg.
Qed.

(** The fallback forecast looks at the last [FALLBACK_WINDOW_POINTS] points
    only: older history does not change it. *)
Theorem fallback_forecast_recent_only
  (older recent : list TimePoint) (horizon : Z) :
  (1 ≤ FALLBACK_WINDOW_POINTS)%Z →
  Z.of_nat (length recent) = FALLBACK_WINDOW_POINTS →
  fallback_forecast (older ++ recent) horizon = fallback_forecast recent horizon.
Proof.
  intros Hpos Hlen.
  assert (recent ≠ []) as Hne by (destruct recent; [simpl in Hlen; lia|done]).
  assert (older ++ recent ≠ []) as Hne' by (by destruct older).
  rewrite !fallback_forecast_nonempty by done. cbv zeta.
  assert (slice_from (- Z.max 1 (Z.min (Z.of_nat (length (older ++ recent)))
                                   FALLBACK_WINDOW_POINTS)) (older ++ recent)
          = recent) as ->.
  { rewrite slice_from_last by (rewrite length_app; lia).
    unfold last_points. rewrite length_app.
    replace (length older + length recent - _)%nat with (length older) by lia.
    by rewrite drop_app_length. }
  assert (slice_from (- Z.max 1 (Z.min (Z.of_nat (length recent))
                                   FALLBACK_WINDOW_POINTS)) recent
          = recent) as ->; [|done].
  rewrite slice_from_last by lia. unfold last_points.
  replace (length recent - _)%nat with 0%nat by lia. done.
Qed.

End ForecasterFacts.

(** ** More on the buffer *)

Section BufferFacts.
Import DataCollector.








End BufferFacts.


(** ** Invariants of the process *)

Section Invariants.
Context {env : Env} {lib : PyLib}.








End Invariants.

(** ** Rate bounds of [build_response] *)

Section RateBounds.
Context {env : Env} {lib : PyLib}.

(** For [fixed] and [sliding], a response of [build_response] never allows
    more than [MAX_RPS] when that bound is enabled: [limit <= MAX_RPS *
    window].  When the bound is disabled the limit covers both the target
    and [MIN_RPS] over the window. *)
Theorem build_response_rate_bounds
  (algo : string) (target : pyfloat) (config : LimitConfigIn)
  (p : option pyfloat) (r : LimitConfigResponse) :
  fixed_or_sliding algo = true →
  build_response algo target config p = Ok r →
  ∃ l w,
    r_limit r = Some l ∧ r_window r = Some w
    ∧ (∀ hi, max_rps = Some hi →
             (PyFloat.of_Z l <=? hi * PyFloat.of_Z w) = true)
    ∧ (max_rps = None →
       (target * PyFloat.of_Z w <=? PyFloat.of_Z l) = true
       ∧ (MIN_RPS * PyFloat.of_Z w <=? PyFloat.of_Z l) = true).
Proof.
  intros Halgo H. unfold build_response in H. rewrite Halgo in H.
  set (w := match window config with
            | Some w => if decide (w = 0%Z) then DEFAULT_WINDOW_SECONDS else w
            | None => DEFAULT_WINDOW_SECONDS
            end) in *.
  apply bind_Ok in H as (limit0 & Hlimit0 & H).
  apply bind_Ok in H as (min_limit & Hmin_limit & H).
  apply bind_Ok in H as (capped & Hcapped & H).
  injection H as <-. simpl. exists capped, w. split_and!; [done..| |].
  - intros hi Hhi. rewrite Hhi in Hcapped.
    apply bind_Ok in Hcapped as (max_limit & Hmax_limit & Hcapped).
    injection Hcapped as <-.
    apply floor_Ok in Hmax_limit as (q & -> & ->). simpl.
    apply Qle_bool_iff.
    apply Qle_trans with (inject_Z (Qfloor q)); [|apply Qfloor_le].
    rewrite <- Zle_Qle. lia.
  - intros Hnone. rewrite Hnone in Hcapped. injection Hcapped as <-.
    apply ceil_Ok in Hlimit0 as (q0 & -> & ->).
    apply ceil_Ok in Hmin_limit as (q1 & -> & ->). simpl.
    split; apply Qle_bool_iff.
    + apply Qle_trans with (inject_Z (Qceiling q0)); [apply Qle_ceiling|].
      rewrite <- Zle_Qle. lia.
    + apply Qle_trans with (inject_Z (Qceiling q1)); [apply Qle_ceiling|].
      rewrite <- Zle_Qle. lia.
Qed.

End RateBounds.

(** ** The coercer *)

Section CoercerFacts.
Context {env : Env} {lib : PyLib}.

(** Whatever the payload, [coerce_current_config] returns the fallback or a
    config that passes [validate_current_config]; it returns [None] only
    when the fallback is [None]. *)
Theorem coerce_current_config_sound (payload : json) (fallback : option LimitConfigIn) :
  (∀ config, coerce_current_config payload fallback = Some config →
             fallback = Some config ∨ validate_current_config config = None)
  ∧ (coerce_current_config payload fallback = None → fallback = None).
Proof.
  split; [intros config|]; unfold coerce_current_config; intros H;
    repeat case_match; simplify_eq; auto.
Qed.

End CoercerFacts.

(** ** Metrics *)


Section MetricsFacts.
Context {env : Env} {lib : PyLib}.


Lemma recommendation_rps_valid r :
  validate_current_config (as_incoming r) = None →
  ∃ rate, recommendation_rps r = Ok (Some rate)
          ∧ current_rps_limit (as_incoming r) = Ok rate.
Proof.
  intros Hvalid. unfold recommendation_rps, current_rps_limit.
  apply validate_current_config_None in Hvalid
    as [(Halgo & l & w & Hl & Hw & Hpos & Hwpos)
       |(Halgo & c & f & Hc & Hf & Hcpos & Hfpos)]; simpl in *.
  - rewrite Halgo. destruct (r_limit r) as [l0|]; [|done].
    injection Hl as <-. rewrite Hw. simpl.
    destruct (decide (w = 0%Z)); [lia|].
    rewrite (Qsign_inject w Hwpos). simpl. eauto.
  - rewrite Halgo, Hf. simpl. eauto.
Qed.


(** [update_algorithm_gauge] with an allowed algorithm sets the sample of
    that algorithm to 1 and the samples of the other allowed algorithms to
    0; no other label is touched, and a call with any other algorithm
    leaves the gauge as it was. *)
Theorem update_algorithm_gauge_one_hot (algo : string) (gauge : gmap string pyfloat) :
  let gauge' := update_algorithm_gauge algo gauge in
  (algo ∈ ALLOWED_ALGORITHMS →
   ∀ a, a ∈ ALLOWED_ALGORITHMS →
        gauge' !! a = Some (if bool_decide (a = algo) then Fin 1 else Fin 0))
  ∧ (∀ a, a ∉ ALLOWED_ALGORITHMS → gauge' !! a = gauge !! a)
  ∧ (algo ∉ ALLOWED_ALGORITHMS → gauge' = gauge).
Proof.
  cbv zeta. unfold update_algorithm_gauge. split_and!.
  - intros Halgo a Ha. rewrite bool_decide_eq_true_2 by done. simpl.
    apply allowed_algorithm_cases in Ha as [->|[->| ->]]; by simplify_map_eq.
  - intros a Ha. destruct (negb _); [done|]. simpl.
    rewrite allowed_algorithm_cases in Ha.
    rewrite !lookup_insert_ne; [done|intros <-; tauto..].
  - intros Halgo. by rewrite bool_decide_eq_false_2.
Qed.


(** For a recommendation that passes [validate_current_config] when read
    back as a config, the two writers agree: [update_metrics_from_response]
    given the observed RPS, the forecast and the history length leaves the
    registry as [update_metrics] does. *)
Theorem update_metrics_from_response_agrees
  request predicted r history_len label m :
  validate_current_config (as_incoming r) = None →
  update_metrics_from_response r (Some (observedRps request)) (Some predicted)
    (Some history_len) label m
  = update_metrics request predicted r history_len label m.
Proof.
  intros Hvalid. unfold update_metrics, update_metrics_from_response.
  destruct (recommendation_rps_valid r Hvalid) as (rate & -> & _). simpl.
  by destruct (limit_gauges _ _) as [[[l w] c] f].
Qed.

End MetricsFacts.

(** ** Instances of the further properties *)

Section Instances.
#[local] Existing Instance default_env.
#[local] Existing Instance PyModel.lib.

Lemma build_response_validates_witness :
  ∃ r, build_response "token" (Fin 137) (fixed_config 100 1) (Some (Fin 130)) = Ok r
       ∧ validate_current_config (as_incoming r) = None
       ∧ r_algorithm r = "token"%string.
Proof.
  destruct (build_response "token" (Fin 137) (fixed_config 100 1) (Some (Fin 130)))
    as [r|] eqn:H; [|by vm_compute in H].
  exists r. split; [done|].
  destruct (build_response_validates "token" (Fin 137) (fixed_config 100 1)
              (Some (Fin 130)) r) as (Hvalid & Halgo & _); try done.
  - apply allowed_algorithm_cases. auto.
  - intros hi Hhi. vm_compute in Hhi. by injection Hhi as <-.
  - intros w [= <-]. lia.
Defined.


Lemma algorithm_switch_interval_witness :
  let request := report 100 None (fixed_config 100 1) in
  let history := [{| ts := 0; rps := Fin 10 |}; {| ts := 1000000; rps := Fin 100 |}] in
  ∃ recommendation state',
    recommend_config (env := switching_env) request (Fin 100) history initial_state 7
      = Ok (recommendation, state')
    ∧ r_algorithm recommendation = "token"%string
    ∧ last_algo_switch_at state' = Some 7%Z
    ∧ last_change_at state' = Some 7%Z.
Proof.
  intros request history.
  destruct (recommend_config (env := switching_env) request (Fin 100) history
              initial_state 7) as [[recommendation state']|] eqn:Hrec;
    [|by vm_compute in Hrec].
  exists recommendation, state'. split; [done|].
  assert (r_algorithm recommendation = "token"%string) as Htoken
    by (by vm_compute in Hrec; injection Hrec as <- _).
  split; [done|].
  destruct (algorithm_switch_interval (env := switching_env) _ _ _ _ _ _ _ Hrec)
    as [[Hsame _]|(_ & _ & _ & Hswitch & Hchange & _)]; [|done].
  rewrite Htoken in Hsame. discriminate.
Defined.

Lemma limit_config_ok_reply_validates_witness :
  let request := report 50 (Some (Fin (2 # 10))) (fixed_config 100 1) in
  ∃ w' body,
    limit_config request 0 0 initial_world = (w', Ok (Decision "ok" body))
    ∧ validate_current_config (as_incoming body) = None
    ∧ last_good_recommendation (state w') = Some body.
Proof.
  intros request.
  destruct (limit_config request 0 0 initial_world) as [w' reply] eqn:H.
  assert (∃ body, reply = Ok (Decision "ok" body)) as [body ->].
  { vm_compute in H. injection H as _ <-. eauto. }
  exists w', body. split; [done|].
  apply (limit_config_ok_reply_validates request 0 0 initial_world w' body);
    try done.
  - intros hi Hhi. vm_compute in Hhi. by injection Hhi as <-.
  - intros w0 [= <-]. lia.
Defined.

Lemma limit_config_reply_forecast_witness :
  let request :=
    report 100 None
      {| algorithm := "sliding"; limit := Some (Fin 0); window := Some 1%Z;
         capacity := None; fillRate := None |} in
  ∃ w' body,
    limit_config request 0 0 initial_world = (w', Ok (Decision "invalid_config" body))
    ∧ r_validFor body = Some 60%Z
    ∧ ∃ p, r_predictedRps body = Some p
           ∧ last_predicted_rps (state w') = Some p
           ∧ (Fin 0 <=? p) = true.
Proof.
  intros request.
  destruct (limit_config request 0 0 initial_world) as [w' reply] eqn:H.
  assert (∃ body, reply = Ok (Decision "invalid_config" body)) as [body ->].
  { vm_compute in H. injection H as _ <-. eauto. }
  exists w', body. split; [done|].
  apply (limit_config_reply_forecast request 0 0 initial_world w'
           "invalid_config" body H).
Defined.

Lemma is_bursty_returns_witness :
  let points := [{| ts := 0; rps := Fin 10 |}; {| ts := 1000000; rps := Fin 100 |}] in
  (0 ≤ BURSTINESS_POINTS)%Z ∧ is_bursty points = Ok false.
Proof.
  intros points.
  assert (0 ≤ BURSTINESS_POINTS)%Z as Hpoints by (by vm_compute).
  split; [done|].
  destruct (is_bursty_returns points Hpoints) as (bursty & -> & Hfew).
  rewrite Hfew; [done|]. by vm_compute.
Defined.

Lemma fallback_forecast_recent_only_witness :
  let older := [{| ts := 0; rps := Fin 900 |}] in
  let recent :=
    [{| ts := 1000000; rps := Fin 100 |}; {| ts := 2000000; rps := Fin 110 |};
     {| ts := 3000000; rps := Fin 120 |}; {| ts := 4000000; rps := Fin 130 |};
     {| ts := 5000000; rps := Fin 140 |}] in
  fallback_forecast (older ++ recent) 60 = fallback_forecast recent 60.
Proof.
  intros older recent.
  apply (fallback_forecast_recent_only older recent 60); by vm_compute.
Defined.


Lemma build_response_rate_bounds_witness :
  ∃ r l w,
    build_response "fixed" (Fin 20000) (fixed_config 100 1) None = Ok r
    ∧ r_limit r = Some l ∧ r_window r = Some w
    ∧ (PyFloat.of_Z l <=? MAX_RPS * PyFloat.of_Z w) = true.
Proof.
  destruct (build_response "fixed" (Fin 20000) (fixed_config 100 1) None)
    as [r|] eqn:H; [|by vm_compute in H].
  destruct (build_response_rate_bounds "fixed" (Fin 20000) (fixed_config 100 1)
              None r eq_refl H) as (l & w & Hl & Hw & Hupper & _).
  exists r, l, w. split_and!; [done..|]. by apply Hupper.
Defined.

Lemma update_metrics_from_response_agrees_witness :
  let request := report 100 None (fixed_config 100 1) in
  let r := {| r_algorithm := "fixed"; r_limit := Some 100%Z; r_window := Some 1%Z;
              r_capacity := None; r_fillRate := None;
              r_predictedRps := Some (Fin 100); r_validFor := Some 60%Z |} in
  update_metrics_from_response r (Some (Fin 100)) (Some (Fin 100)) (Some 1%Z) "ok"
    initial_metrics
  = update_metrics request (Fin 100) r 1 "ok" initial_metrics.
Proof.
  intros request r.
  by apply (update_metrics_from_response_agrees request (Fin 100) r 1 "ok"
              initial_metrics).
Defined.

End Instances.
